(** * Schema-driven data entry: validation, casting, store and CSV import

    A shallow embedding of [data_apk.py], the single-file Streamlit
    application: the session state ([schema], [rows], [num_vars],
    [temp_fields]), [validate_and_cast], [schema_to_dataframe] and the
    button handlers of the script (Save schema, Reset, Clear, Add row, CSV
    upload, CSV download).

    Python values are a small tagged union, a [str] is held as its UTF-8
    encoding, dictionaries are [gmap]s, the
    calls into Streamlit are recorded in a log, and exceptions are explicit:
    a computation either returns or raises. What belongs to the Python
    runtime and to pandas (parsing a float, parsing a date, rendering a
    float, reading and writing CSV text) is not part of the script and is
    taken as a parameter, collected in the record [PyLib]. *)

From Stdlib Require Import Ascii SpecFloat.
From stdpp Require Import gmap strings list fin_maps pretty.

#[local] Set Warnings "-clear-no-such-hyp".

(** ** Strings *)

Module Str.

(** A Python [str] is held as its UTF-8 encoding: a character is a byte that
    is no continuation byte, with the continuation bytes that follow it. *)

Definition continuation (c : ascii) : bool :=
  let n := N_of_ascii c in ((128 <=? n) && (n <=? 191))%N.

(** [s] goes on the character before it. *)
Definition continues (s : string) : bool :=
  match s with
  | EmptyString => false
  | String d _ => continuation d
  end.

(** The characters of [s], in order. *)
Fixpoint chars (s : string) : list string :=
  match s with
  | EmptyString => []
  | String c r =>
      match chars r with
      | ch :: rest =>
          if continues r then String c ch :: rest
          else String c EmptyString :: ch :: rest
      | [] => [String c EmptyString]
      end
  end.

Fixpoint bytes (s : string) : list N :=
  match s with
  | EmptyString => []
  | String c r => N_of_ascii c :: bytes r
  end.

(** [str.isspace] on one character, the whitespace that [str.strip] removes:
    U+0009 to U+000D, U+001C to U+0020, U+0085, U+00A0, U+1680, U+2000 to
    U+200A, U+2028, U+2029, U+202F, U+205F and U+3000. *)
Definition isspace (ch : string) : bool :=
  match bytes ch with
  | [b] => ((9 <=? b) && (b <=? 13) || (28 <=? b) && (b <=? 32))%N
  | [194; b] => ((b =? 133) || (b =? 160))%N
  | [225; 154; 128] => true
  | [226; 128; b] =>
      ((128 <=? b) && (b <=? 138) || (b =? 168) || (b =? 169) || (b =? 175))%N
  | [226; 129; 159] => true
  | [227; 128; 128] => true
  | _ => false
  end%N.

Fixpoint lstrip_chars (l : list string) : list string :=
  match l with
  | [] => []
  | ch :: r => if isspace ch then lstrip_chars r else l
  end.

Fixpoint rstrip_chars (l : list string) : list string :=
  match l with
  | [] => []
  | ch :: r =>
      match rstrip_chars r with
      | [] => if isspace ch then [] else [ch]
      | r' => ch :: r'
      end
  end.

(** The text of a list of characters. *)
Definition join (l : list string) : string := foldr String.append EmptyString l.

Definition lstrip (s : string) : string := join (lstrip_chars (chars s)).
Definition rstrip (s : string) : string := join (rstrip_chars (chars s)).

(** [s.strip()] *)
Definition strip (s : string) : string :=
  join (rstrip_chars (lstrip_chars (chars s))).

(** Every character of [s] is whitespace (the empty string included). *)
Definition all_space (s : string) : bool := forallb isspace (chars s).

End Str.

(** ** Python values *)

(** [datetime.date] *)
Record date := mkdate { year : Z; month : Z; day : Z }.

(** The values that reach [validate_and_cast] and the values it stores.
    The form widgets deliver [str], [datetime.date] and [None]; a frame read
    by [pd.read_csv] delivers [str], [float] (NaN for an empty field),
    integers and booleans; [pd.to_datetime] can answer [NaT]. A float is an
    IEEE 754 double, written as a [spec_float]. *)
Inductive pyval :=
| PyNone
| PyStr (s : string)
| PyFloat (x : spec_float)
| PyInt (n : Z)
| PyBool (b : bool)
| PyDate (d : date)
| PyNaT.

Definition nan : pyval := PyFloat S754_nan.

(** An exception derived from [Exception], kept as the text [str(e)]. *)
Definition exn := string.

(** A computation that returns a value or raises. *)
Inductive result (A : Type) :=
| Return (a : A)
| Raise (e : exn).
Arguments Return {A} a.
Arguments Raise {A} e.

Definition bind {A B} (m : result A) (k : A → result B) : result B :=
  match m with
  | Return a => k a
  | Raise e => Raise e
  end.

(** [try: body  except Exception as e: handler(e)] *)
Definition try_except {A} (body : result A) (handler : exn → result A) : result A :=
  match body with
  | Return a => Return a
  | Raise e => handler e
  end.

Definition raises {A} (m : result A) : Prop := ∃ e, m = Raise e.

(** ** The Python runtime and pandas *)

(** A [pandas.DataFrame] as [iterrows] shows it: the column labels and,
    row by row, one value per column. *)
Record DataFrame := mkframe {
  columns : list string;
  data : list (list pyval)
}.

Record PyLib := {
  (** [float(s)] for a [str]: the parsed double, or [ValueError] *)
  float_of_str : string → result spec_float;
  (** the text of the [TypeError] of [float(v)] for a [v] that is no number *)
  float_type_error : pyval → exn;
  (** [str(x)] for a finite double *)
  str_of_finite : spec_float → string;
  (** [str(d)] for a date, [d.isoformat()] *)
  str_of_date : date → string;
  (** [pd.to_datetime(v).date()] *)
  to_datetime_date : pyval → result pyval;
  (** [str(l)] for a list of strings, as an f-string renders it *)
  repr_list : list string → string;
  (** [pd.read_csv(uploaded)] on the text of the uploaded file *)
  read_csv : string → result DataFrame;
  (** [df.to_csv(index=False)] *)
  to_csv : DataFrame → string
}.

(** [float(n)] for an [int]: the nearest double, ties to even, and
    [OverflowError] beyond the range of a double. *)
Definition float_of_int (n : Z) : result spec_float :=
  match binary_normalize 53 1024 n 0 false with
  | S754_infinity _ => Raise "int too large to convert to float"
  | x => Return x
  end.

(** ** Session state *)

(** A schema entry, the dictionary [{'name': ..., 'type': ...}]. *)
Record field := mkfield { name : string; type : string }.

(** [st.session_state]: the four keys [init_state] creates. A row is a
    dictionary from field name to value. *)
Record session_state := mkstate {
  schema : list field;
  rows : list (gmap string pyval);
  num_vars : nat;
  temp_fields : gmap string string
}.

(** The state after [init_state] on a fresh session. *)
Definition init_state : session_state :=
  {| schema := []; rows := []; num_vars := 3; temp_fields := ∅ |}.

(** The calls into Streamlit that show something to the user. *)
Inductive st_call :=
| st_error (body : string)
| st_warning (body : string)
| st_success (body : string)
| st_info (body : string)
| st_dataframe (df : DataFrame)
| st_download_button (csv : string).

(** ** The script monad

    A handler runs on the session state and the page it has written so far.
    It ends normally or by a raised signal; whatever it wrote to the state
    before the signal stays written. [st.rerun()] raises Streamlit's
    [RerunException], which is a [BaseException] and is therefore not caught
    by [except Exception]. *)

Record world := mkworld { session : session_state; page : list st_call }.

Inductive signal :=
| Exception (e : exn)
| RerunException.

Inductive outcome (A : Type) :=
| Done (a : A)
| Thrown (sg : signal).
Arguments Done {A} a.
Arguments Thrown {A} sg.

Definition script (A : Type) : Type := world → outcome A * world.

Definition ret {A} (a : A) : script A := λ w, (Done a, w).

Definition seq_bind {A B} (m : script A) (k : A → script B) : script B :=
  λ w, match m w with
       | (Done a, w') => k a w'
       | (Thrown sg, w') => (Thrown sg, w')
       end.

Notation "'let*' x := m 'in' k" := (seq_bind m (λ x, k))
  (at level 10, x pattern, m at level 100, k at level 200).
Notation "m ;; k" := (seq_bind m (λ _, k))
  (at level 100, k at level 200, right associativity).

(** A call that may raise an [Exception]. *)
Definition lift {A} (r : result A) : script A :=
  λ w, match r with
       | Return a => (Done a, w)
       | Raise e => (Thrown (Exception e), w)
       end.

Definition get_state : script session_state := λ w, (Done (session w), w).

Definition modify_state (f : session_state → session_state) : script unit :=
  λ w, (Done tt, {| session := f (session w); page := page w |}).

(** One call that writes to the page. *)
Definition st (c : st_call) : script unit :=
  λ w, (Done tt, {| session := session w; page := page w ++ [c] |}).

(** [st.rerun()] *)
Definition st_rerun : script unit := λ w, (Thrown RerunException, w).

(** [try: body  except Exception as e: handler(e)] in a handler. *)
Definition try_except_Exception {A} (body : script A) (handler : exn → script A)
  : script A :=
  λ w, match body w with
       | (Thrown (Exception e), w') => handler e w'
       | r => r
       end.

(** Assignments to the keys of [st.session_state]. *)
Definition set_schema (v : list field) (s : session_state) : session_state :=
  {| schema := v; rows := rows s; num_vars := num_vars s; temp_fields := temp_fields s |}.
Definition set_rows (v : list (gmap string pyval)) (s : session_state) : session_state :=
  {| schema := schema s; rows := v; num_vars := num_vars s; temp_fields := temp_fields s |}.
Definition set_num_vars (v : nat) (s : session_state) : session_state :=
  {| schema := schema s; rows := rows s; num_vars := v; temp_fields := temp_fields s |}.
Definition set_temp_fields (v : gmap string string) (s : session_state) : session_state :=
  {| schema := schema s; rows := rows s; num_vars := num_vars s; temp_fields := v |}.

Section Script.

Variable L : PyLib.

(** [float(v)] *)
Definition py_float (v : pyval) : result spec_float :=
  match v with
  | PyFloat x => Return x
  | PyStr s => float_of_str L s
  | PyInt n => float_of_int n
  | PyBool b => float_of_int (Z.b2z b)
  | PyNone | PyDate _ | PyNaT => Raise (float_type_error L v)
  end.

(** [str(v)] *)
Definition py_str (v : pyval) : string :=
  match v with
  | PyNone => "None"
  | PyStr s => s
  | PyFloat S754_nan => "nan"
  | PyFloat (S754_infinity false) => "inf"
  | PyFloat (S754_infinity true) => "-inf"
  | PyFloat x => str_of_finite L x
  | PyInt n => pretty n
  | PyBool true => "True"
  | PyBool false => "False"
  | PyDate d => str_of_date L d
  | PyNaT => "NaT"
  end.

(** [isinstance(val, str) and val.strip() == ''] *)
Definition is_blank_str (val : pyval) : bool :=
  match val with
  | PyStr s => bool_decide (Str.strip s = "")
  | _ => false
  end.

(** [isinstance(val, datetime.date)]; pandas' [NaT] derives from
    [datetime]. *)
Definition is_date (val : pyval) : bool :=
  match val with
  | PyDate _ | PyNaT => true
  | _ => false
  end.

(** The body of the [try] in [validate_and_cast]: the value that is
    assigned to [out[name]]. *)
Definition cast (ftype : string) (val : pyval) : result pyval :=
  if decide (ftype = "number") then
    bind (py_float val) (λ x, Return (PyFloat x))
  else if decide (ftype = "date") then
    if is_date val then Return val else to_datetime_date L val
  else Return (PyStr (py_str val)).

(** What [validate_and_cast] returns: [(True, out)] or [(False, message)]. *)
Inductive cast_result :=
| Ok (out : gmap string pyval)
| Failed (msg : string).

(** One round of the [for] loop leaves [out] for the next round or
    returns from the function. *)
Inductive flow :=
| Next (out : gmap string pyval)
| Exit (r : cast_result).

Definition cast_error (name ftype : string) (e : exn) : string :=
  "Error casting field '" +:+ name +:+ "' to " +:+ ftype +:+ ": " +:+ e.

(** The value looked up in the raw row after the empty-string handling. *)
Definition raw_value (row_dict : gmap string pyval) (name : string) : pyval :=
  let val := default PyNone (row_dict !! name) in
  if is_blank_str val then PyNone else val.

Definition loop_body (f : field) (row_dict out : gmap string pyval) : result flow :=
  let name := name f in
  let ftype := type f in
  match raw_value row_dict name with
  | PyNone => Return (Next (<[name := PyNone]> out))
  | val =>
      try_except
        (bind (cast ftype val) (λ v, Return (Next (<[name := v]> out))))
        (λ e, Return (Exit (Failed (cast_error name ftype e))))
  end.

(** The value one round assigns to [out[name]], or the exception of the
    cast. *)
Definition field_value (row_dict : gmap string pyval) (f : field) : result pyval :=
  match raw_value row_dict (name f) with
  | PyNone => Return PyNone
  | val => cast (type f) val
  end.

Fixpoint validate_loop (fields : list field) (row_dict out : gmap string pyval)
  : result cast_result :=
  match fields with
  | [] => Return (Ok out)
  | f :: fields' =>
      bind (loop_body f row_dict out) (λ fl,
        match fl with
        | Next out' => validate_loop fields' row_dict out'
        | Exit r => Return r
        end)
  end.

(** [validate_and_cast(row_dict)], reading [st.session_state.schema]. *)
Definition validate_and_cast (s : session_state) (row_dict : gmap string pyval)
  : result cast_result :=
  validate_loop (schema s) row_dict ∅.

(** ** Frames *)

(** The value of a row of a frame under the label [c]; a row that is too
    short is filled with NaN. *)
Definition cell (cols : list string) (r : list pyval) (c : string) : pyval :=
  default nan (list_to_map (M := gmap string pyval) (zip cols r) !! c).

(** [df[expected_cols]] *)
Definition getitem (df : DataFrame) (expected_cols : list string) : DataFrame :=
  {| columns := expected_cols;
     data := map (λ r, map (cell (columns df) r) expected_cols) (data df) |}.

(** [r.to_dict()] for a row [r] that [iterrows] yields. *)
Definition to_dict (cols : list string) (r : list pyval) : gmap string pyval :=
  list_to_map (zip cols r).

(** The column that pandas makes of the entries of the dictionaries under
    one key, for the values that [validate_and_cast] stores: it has the type
    [float64] when it holds a float, the NaN of a lacking key included, and
    nothing but floats and [None]; [None] is NaN in such a column. In a
    column of any other content the values stay as they are. *)
Definition float64_column (entries : list (option pyval)) : bool :=
  existsb (λ o, match o with None | Some (PyFloat _) => true | _ => false end) entries
  && forallb (λ o, match o with
                   | None | Some PyNone | Some (PyFloat _) => true
                   | _ => false
                   end) entries.

(** The cell under a key: a key that the dictionary lacks gives NaN. *)
Definition frame_cell (float64 : bool) (o : option pyval) : pyval :=
  match o with
  | None => nan
  | Some PyNone => if float64 then nan else PyNone
  | Some v => v
  end.

(** [pd.DataFrame(rows, columns=cols)] for a list of dictionaries. *)
Definition DataFrame_of_rows (rs : list (gmap string pyval)) (cols : list string)
  : DataFrame :=
  {| columns := cols;
     data := map (λ r, map (λ c, frame_cell (float64_column (map (λ r', r' !! c) rs))
                                            (r !! c)) cols) rs |}.

Definition schema_to_dataframe (s : session_state) : DataFrame :=
  match schema s with
  | [] => {| columns := []; data := [] |}
  | _ => DataFrame_of_rows (rows s) (map name (schema s))
  end.

(** [df.empty]: an axis of length zero. *)
Definition empty (df : DataFrame) : bool :=
  bool_decide (columns df = []) || bool_decide (data df = []).

(** ** Handlers *)

(** The number input. *)
Definition number_input (n : nat) : script unit :=
  let* s := get_state in
  if decide (n ≠ num_vars s) then modify_state (set_num_vars n) else ret tt.

Definition name_key (i : nat) : string := "name_" +:+ pretty i.
Definition type_key (i : nat) : string := "type_" +:+ pretty i.

(** Button "Create fields". *)
Definition create_fields : script unit :=
  let* s := get_state in
  modify_state (set_temp_fields
    (foldl (λ tf i, <[type_key i := "short text"]> (<[name_key i := ""]> tf))
           ∅ (seq 0 (num_vars s)))) ;;
  st_rerun.

(** The text input and the select box of variable [i]. *)
Definition edit_field (i : nat) (new_name new_type : string) : script unit :=
  let* s := get_state in
  if decide (temp_fields s !! name_key i ≠ Some new_name
             ∨ temp_fields s !! type_key i ≠ Some new_type)
  then modify_state (λ s, set_temp_fields
         (<[type_key i := new_type]> (<[name_key i := new_name]> (temp_fields s))) s)
  else ret tt.

(** The loop of "Save schema" over [range(num_vars)], with its [break]:
    the final [(ok, msg, new_schema)]. *)
Fixpoint save_loop (idx : list nat) (tf : gmap string string)
    (new_schema : list field) (seen : gset string) : bool * string * list field :=
  match idx with
  | [] => (true, "", new_schema)
  | i :: idx' =>
      let nm := Str.strip (default "" (tf !! name_key i)) in
      let tp := default "short text" (tf !! type_key i) in
      if decide (nm = "") then
        (false, "Variable name #" +:+ pretty (i + 1) +:+ " is empty.", new_schema)
      else if decide (nm ∈ seen) then
        (false, "Duplicate variable name: '" +:+ nm +:+ "'.", new_schema)
      else save_loop idx' tf (new_schema ++ [mkfield nm tp]) ({[nm]} ∪ seen)
  end.

(** Button "Save schema". *)
Definition save_schema : script unit :=
  let* s := get_state in
  let '(ok, msg, new_schema) :=
    save_loop (seq 0 (num_vars s)) (temp_fields s) [] ∅ in
  if negb ok then st (st_error msg)
  else
    modify_state (set_schema new_schema) ;;
    modify_state (set_rows []) ;;
    modify_state (set_temp_fields ∅) ;;
    st (st_success "Schema saved — now enter data below.") ;;
    st_rerun.

(** Button "Reset schema and data". *)
Definition reset_schema : script unit :=
  modify_state (set_schema []) ;;
  modify_state (set_rows []) ;;
  st_rerun.

(** Button "Clear data (keep schema)". *)
Definition clear_data : script unit :=
  modify_state (set_rows []) ;;
  st_rerun.

(** [st.session_state.rows.append(res)] *)
Definition append_row (res : gmap string pyval) : script unit :=
  modify_state (λ s, set_rows (rows s ++ [res]) s).

(** The form "add_row_form", submitted with the raw row [new_row]. *)
Definition add_row (new_row : gmap string pyval) : script unit :=
  let* s := get_state in
  let* r := lift (validate_and_cast s new_row) in
  match r with
  | Failed result => st (st_error result)
  | Ok result =>
      append_row result ;;
      st (st_success "Row added.") ;;
      st_rerun
  end.

(** The loop over [df_new.iterrows()], with its two local variables. *)
Fixpoint import_loop (cols : list string) (rs : list (list pyval))
    (bad_rows : list string) (added : nat) : script (list string * nat) :=
  match rs with
  | [] => ret (bad_rows, added)
  | r :: rs' =>
      let rowdict := to_dict cols r in
      let* s := get_state in
      let* res := lift (validate_and_cast s rowdict) in
      match res with
      | Failed msg => import_loop cols rs' (bad_rows ++ [msg]) added
      | Ok out => append_row out ;; import_loop cols rs' bad_rows (added + 1)
      end
  end.

(** The file uploader holding a file with the text [uploaded]. *)
Definition upload_csv (uploaded : string) : script unit :=
  try_except_Exception
    (let* df_new := lift (read_csv L uploaded) in
     let* s := get_state in
     let expected_cols := map name (schema s) in
     let missing := filter (λ c, c ∉ columns df_new) expected_cols in
     let extra := filter (λ c, c ∉ expected_cols) (columns df_new) in
     if bool_decide (missing ≠ []) then
       st (st_error ("Missing columns in uploaded CSV: " +:+ repr_list L missing))
     else
       let df_new := getitem df_new expected_cols in
       let* r := import_loop (columns df_new) (data df_new) [] 0 in
       let '(bad_rows, added) := r in
       (if bool_decide (bad_rows ≠ []) then
          st (st_warning ("Some rows failed to import (showing up to 5 errors): "
                          +:+ repr_list L (take 5 bad_rows)))
        else ret tt) ;;
       st (st_success ("Imported " +:+ pretty added +:+ " rows from CSV.")) ;;
       st_rerun)
    (λ e, st (st_error ("Error reading CSV: " +:+ e))).

(** The section "Data table": the table and the download button. *)
Definition data_table : script unit :=
  let* s := get_state in
  let df := schema_to_dataframe s in
  if empty df then
    st (st_info "No rows yet — add some using the form above or upload a CSV.")
  else
    st (st_dataframe df) ;;
    st (st_download_button (to_csv L df)).

(** The CSV text behind the download button, when there is one. *)
Definition export_csv (s : session_state) : option string :=
  let df := schema_to_dataframe s in
  if empty df then None else Some (to_csv L df).

(** ** One run of the script *)

(** What the user did to start the run. *)
Inductive event :=
| NumberInput (n : nat)
| CreateFields
| EditField (i : nat) (new_name new_type : string)
| SaveSchema
| ResetSchema
| ClearData
| AddRow (new_row : gmap string pyval)
| Upload (uploaded : string).

(** The part of the page under [if st.session_state.schema:], and the
    [else] of that test. *)
Definition with_schema (h : script unit) : script unit :=
  let* s := get_state in
  match schema s with
  | [] =>
      st (st_info "Define a schema to get started (choose number of variables and click Create fields).")
  | _ => h
  end.

Definition handle (ev : event) : script unit :=
  match ev with
  | NumberInput n => number_input n
  | CreateFields => create_fields
  | EditField i new_name new_type => edit_field i new_name new_type
  | SaveSchema => save_schema
  | ResetSchema => with_schema reset_schema
  | ClearData => with_schema clear_data
  | AddRow new_row => with_schema (add_row new_row)
  | Upload uploaded => with_schema (upload_csv uploaded)
  end.

(** The session state after the run that [ev] starts, on a fresh page. *)
Definition step (s : session_state) (ev : event) : session_state :=
  session (snd (handle ev {| session := s; page := [] |})).

(** The session state after a sequence of runs. *)
Definition run (evs : list event) : session_state := foldl step init_state evs.

(** ** Reading the upload row by row *)

(** The outcome of [validate_and_cast] on every row of a frame. *)
Definition attempts (s : session_state) (cols : list string)
    (rs : list (list pyval)) : list (result cast_result) :=
  map (λ r, validate_and_cast s (to_dict cols r)) rs.

(** The rows that validated, in order. *)
Definition imported (l : list (result cast_result)) : list (gmap string pyval) :=
  omap (λ x, match x with Return (Ok out) => Some out | _ => None end) l.

(** The messages of the rows that did not, in order. *)
Definition failures (l : list (result cast_result)) : list string :=
  omap (λ x, match x with Return (Failed msg) => Some msg | _ => None end) l.

(** What the upload writes to the page after the loop. *)
Definition import_report (l : list (result cast_result)) : list st_call :=
  (if bool_decide (failures l ≠ []) then
     [st_warning ("Some rows failed to import (showing up to 5 errors): "
                  +:+ repr_list L (take 5 (failures l)))]
   else []) ++
  [st_success ("Imported " +:+ pretty (length (imported l)) +:+ " rows from CSV.")].

End Script.

(** ** Notions used in the statements *)

(** All bytes of [s] are continuation bytes. *)
Fixpoint trails (s : string) : bool :=
  match s with
  | EmptyString => true
  | String c r => Str.continuation c && trails r
  end.

(** [ch] is a byte with continuation bytes after it. *)
Definition one_char (ch : string) : bool :=
  match ch with
  | EmptyString => false
  | String _ t => trails t
  end.

(** A list of characters as [Str.chars] gives it: every element is one
    character, and none but the first starts with a continuation byte. *)
Definition chunked (l : list string) : Prop :=
  Forall (λ ch, one_char ch = true) l ∧
  Forall (λ ch, Str.continues ch = false) (tail l).

(** A raw entry that stands for no value: the key is missing, the value is
    [None], or the value is a string of whitespace. *)
Definition blank (o : option pyval) : Prop :=
  o = None ∨ o = Some PyNone ∨ ∃ s, o = Some (PyStr s) ∧ Str.all_space s = true.

(** The name and the type of draft variable [i] as "Save schema" reads
    them. *)
Definition draft_name (tf : gmap string string) (i : nat) : string :=
  Str.strip (default "" (tf !! name_key i)).
Definition draft_type (tf : gmap string string) (i : nat) : string :=
  default "short text" (tf !! type_key i).
Definition draft_field (tf : gmap string string) (i : nat) : field :=
  mkfield (draft_name tf i) (draft_type tf i).

(** No draft variable before [i] has an empty name or the name of an
    earlier one. *)
Definition clean_before (tf : gmap string string) (i : nat) : Prop :=
  ∀ j, j < i → draft_name tf j ≠ "" ∧ (∀ k, k < j → draft_name tf k ≠ draft_name tf j).

(** Every stored row has exactly the field names of the schema as keys. *)
Definition keys_match (s : session_state) : Prop :=
  Forall (λ r : gmap string pyval,
            dom r = list_to_set (C := gset string) (map name (schema s))) (rows s).


(** ** A library instance

    The script is run on concrete inputs against this instance, which
    covers a fragment of what Python and pandas accept. [float] reads an
    unsigned decimal numeral of at most 15 digits, with or without a
    fraction; [pd.to_datetime] reads [YYYY-MM-DD]; a double with an integer
    value prints as that integer followed by [.0]; a list of strings prints
    as Python prints printable text; CSV text is plain, without quoting, and
    a field that is not empty is read as text. *)

Module Sample.

Definition newline : string := String (ascii_of_nat 10) "".
Definition dquote : ascii := ascii_of_nat 34.

Fixpoint digits (s : string) (acc : N) : option N :=
  match s with
  | EmptyString => Some acc
  | String c r =>
      match Ascii.is_nat c with
      | Some d => digits r (acc * 10 + N.of_nat d)%N
      | None => None
      end
  end.

Definition number (s : string) : option N :=
  match s with
  | EmptyString => None
  | _ => digits s 0%N
  end.

(** The text before and after the first [sep]. *)
Fixpoint cut (sep : ascii) (s : string) : string * option string :=
  match s with
  | EmptyString => (EmptyString, None)
  | String c r =>
      if decide (c = sep) then (EmptyString, Some r)
      else let '(a, b) := cut sep r in (String c a, b)
  end.

Definition double (n : Z) : spec_float := binary_normalize 53 1024 n 0 false.

(** Both [n] and the power of ten are doubles, so that one correctly
    rounded division gives the nearest double. *)
Definition decimal (s : string) : option spec_float :=
  let '(int, frac) := cut "." s in
  let frac := default "" frac in
  match number (int +:+ frac) with
  | Some n =>
      if bool_decide (String.length (int +:+ frac) ≤ 15)
      then Some (SFdiv 53 1024 (double (Z.of_N n))
                               (double (10 ^ Z.of_nat (String.length frac))))
      else None
  | None => None
  end.

Definition parse_float (s : string) : result spec_float :=
  match decimal s with
  | Some x => Return x
  | None => Raise ("could not convert string to float: '" +:+ s +:+ "'")
  end.

Definition type_error (v : pyval) : exn :=
  "float() argument must be a string or a real number".

Definition show_finite (x : spec_float) : string :=
  match x with
  | S754_zero sg => if sg then "-0.0" else "0.0"
  | S754_finite sg m e =>
      (if sg then "-" else "") +:+ pretty (Z.shiftl (Z.pos m) e) +:+ ".0"
  | _ => ""
  end.

Definition two (n : Z) : string :=
  (if bool_decide (n < 10)%Z then "0" else "") +:+ pretty n.

Definition isoformat (d : date) : string :=
  pretty (year d) +:+ "-" +:+ two (month d) +:+ "-" +:+ two (day d).

Definition iso_date (s : string) : option date :=
  match s with
  | String y1 (String y2 (String y3 (String y4 (String "-"
      (String m1 (String m2 (String "-" (String d1 (String d2 EmptyString))))))))) =>
      match number (String y1 (String y2 (String y3 (String y4 "")))),
            number (String m1 (String m2 "")),
            number (String d1 (String d2 "")) with
      | Some y, Some m, Some d => Some (mkdate (Z.of_N y) (Z.of_N m) (Z.of_N d))
      | _, _, _ => None
      end
  | _ => None
  end.

Definition parse_date (v : pyval) : result pyval :=
  match v with
  | PyStr s =>
      match iso_date s with
      | Some d => Return (PyDate d)
      | None => Raise ("Unknown datetime string format, unable to parse: " +:+ s)
      end
  | _ => Return PyNaT
  end.

Fixpoint join (sep : string) (l : list string) : string :=
  match l with
  | [] => ""
  | [x] => x
  | x :: l' => x +:+ sep +:+ join sep l'
  end.

Fixpoint occurs (c : ascii) (s : string) : bool :=
  match s with
  | EmptyString => false
  | String d r => bool_decide (c = d) || occurs c r
  end.

Fixpoint escape (q : ascii) (s : string) : string :=
  match s with
  | EmptyString => EmptyString
  | String c r =>
      if bool_decide (c = q) || bool_decide (c = "\"%char)
      then String "\" (String c (escape q r))
      else String c (escape q r)
  end.

(** [repr(s)]: double quotes when the text has a single quote and no
    double quote, single quotes otherwise. *)
Definition show_str (s : string) : string :=
  let q := if occurs "'" s && negb (occurs dquote s) then dquote else "'"%char in
  String q (escape q s) +:+ String q "".

Definition show_list (l : list string) : string :=
  "[" +:+ join ", " (map show_str l) +:+ "]".

(** The pieces of [s] between the occurrences of [sep]. *)
Fixpoint split (sep : ascii) (s : string) (cur : string) : list string :=
  match s with
  | EmptyString => [String.rev cur]
  | String c r =>
      if decide (c = sep) then String.rev cur :: split sep r ""
      else split sep r (String c cur)
  end.

Definition read_field (s : string) : pyval :=
  if decide (s = "") then nan else PyStr s.

Definition parse_csv (text : string) : result DataFrame :=
  match filter (λ l, l ≠ "") (split (ascii_of_nat 10) text "") with
  | [] => Raise "No columns to parse from file"
  | header :: lines =>
      Return {| columns := split "," header "";
                data := map (λ l, map read_field (split "," l "")) lines |}
  end.

Definition write_field (v : pyval) : string :=
  match v with
  | PyNone | PyFloat S754_nan | PyNaT => ""
  | PyStr s => s
  | PyFloat (S754_infinity sg) => if sg then "-inf" else "inf"
  | PyFloat x => show_finite x
  | PyInt n => pretty n
  | PyBool b => if b then "True" else "False"
  | PyDate d => isoformat d
  end.

Definition write_csv (df : DataFrame) : string :=
  join "," (columns df) +:+ newline +:+
  String.concat "" (map (λ r, join "," (map write_field r) +:+ newline) (data df)).

Definition lib : PyLib :=
  {| float_of_str := parse_float;
     float_type_error := type_error;
     str_of_finite := show_finite;
     str_of_date := isoformat;
     to_datetime_date := parse_date;
     repr_list := show_list;
     read_csv := parse_csv;
     to_csv := write_csv |}.

End Sample.

(** ** Sample states and files *)

(** The schema of the example: a number and a date. *)
Definition age_joined : session_state :=
  {| schema := [mkfield "age" "number"; mkfield "joined" "date"];
     rows := []; num_vars := 2; temp_fields := ∅ |}.

(** A schema of two short text fields, and no row. *)
Definition two_texts : session_state :=
  {| schema := [mkfield "a" "short text"; mkfield "b" "short text"];
     rows := []; num_vars := 2; temp_fields := ∅ |}.

(** NO-BREAK SPACE (U+00A0) and EM SPACE (U+2003), as UTF-8. *)
Definition nbsp : string :=
  String (ascii_of_nat 194) (String (ascii_of_nat 160) "").
Definition em_space : string :=
  String (ascii_of_nat 226) (String (ascii_of_nat 128) (String (ascii_of_nat 131) "")).

(** A schema with a field of each type. *)
Definition four_types : session_state :=
  {| schema := [mkfield "a" "short text"; mkfield "b" "long text";
                mkfield "c" "number"; mkfield "d" "date"];
     rows := []; num_vars := 4; temp_fields := ∅ |}.

(** A session with one stored row and the draft [tf]. *)
Definition with_draft (tf : list (string * string)) : session_state :=
  {| schema := schema age_joined;
     rows := [ {[ "age" := nan; "joined" := PyNone ]} ];
     num_vars := 3;
     temp_fields := list_to_map tf |}.

(** The CSV text of twelve data rows for the schema [age_joined]; the rows
    3, 5, 6, 8, 10, 11 and 12 have no number under [age]. *)
Definition twelve_rows : string :=
  "joined,age,note
2023-01-01,1,a
2023-01-02,2,b
2023-01-03,three,c
2023-01-04,4,d
2023-01-05,five,e
2023-01-06,six,f
2023-01-07,7,g
2023-01-08,eight,h
2023-01-09,9,i
2023-01-10,ten,j
2023-01-11,eleven,k
2023-01-12,twelve,l
".

(** The same file without the column [note]. *)
Definition twelve_rows_projected : string :=
  "age,joined
1,2023-01-01
2,2023-01-02
three,2023-01-03
4,2023-01-04
five,2023-01-05
six,2023-01-06
7,2023-01-07
eight,2023-01-08
9,2023-01-09
ten,2023-01-10
eleven,2023-01-11
twelve,2023-01-12
".

(** A file without the column [age]. *)
Definition no_age : string :=
  "joined,note
2023-01-01,a
".

Definition twelve_rows_frame : DataFrame :=
  match Sample.parse_csv twelve_rows with
  | Return df => df
  | Raise _ => mkframe [] []
  end.

(** ** The rest of the script *)

(** The loop under "Define variables" over [range(num_vars)]: the text
    input and the select box of variable [i] hold [widgets i]. *)
Fixpoint define_loop (idx : list nat) (widgets : nat → string * string)
  : script unit :=
  match idx with
  | [] => ret tt
  | i :: idx' =>
      edit_field i (fst (widgets i)) (snd (widgets i)) ;;
      define_loop idx' widgets
  end.

Definition define_variables (widgets : nat → string * string) : script unit :=
  let* s := get_state in
  define_loop (seq 0 (num_vars s)) widgets.

(** A run in which "Save schema" is pressed: the loop over the widgets,
    then the handler of the button. *)
Definition define_and_save (widgets : nat → string * string) : script unit :=
  define_variables widgets ;; save_schema.

(** What the loop leaves in [temp_fields]. *)
Definition synced (widgets : nat → string * string) (idx : list nat)
    (tf : gmap string string) : gmap string string :=
  foldl (λ tf i, <[type_key i := snd (widgets i)]>
                   (<[name_key i := fst (widgets i)]> tf)) tf idx.

(** The row that the form "add_row_form" builds: [typed nm] is the text in
    the text widget of field [nm] and [picked nm] the date in its date
    widget, if one is picked. *)
Definition form_entry (typed : string → string) (picked : string → option date)
    (new_row : gmap string pyval) (f : field) : gmap string pyval :=
  let nm := name f in
  let tp := type f in
  if decide (tp = "short text") then <[nm := PyStr (typed nm)]> new_row
  else if decide (tp = "long text") then <[nm := PyStr (typed nm)]> new_row
  else if decide (tp = "number") then <[nm := PyStr (typed nm)]> new_row
  else if decide (tp = "date") then
    <[nm := from_option PyDate PyNone (picked nm)]> new_row
  else new_row.

Definition form_row (typed : string → string) (picked : string → option date)
    (fields : list field) : gmap string pyval :=
  foldl (form_entry typed picked) ∅ fields.

(** The value the form holds for a field. *)
Definition form_value (typed : string → string) (picked : string → option date)
    (f : field) : option pyval :=
  if decide (type f = "short text") then Some (PyStr (typed (name f)))
  else if decide (type f = "long text") then Some (PyStr (typed (name f)))
  else if decide (type f = "number") then Some (PyStr (typed (name f)))
  else if decide (type f = "date") then Some (from_option PyDate PyNone (picked (name f)))
  else None.

(** The widgets of the example: variable 0 is the number [age], variable 1
    the date [joined]. *)
Definition age_joined_widgets (i : nat) : string * string :=
  match i with
  | 0 => ("  age", "number")
  | 1 => ("joined ", "date")
  | _ => ("", "short text")
  end.

(** The rows that the upload of the text [uploaded] adds under the schema
    of [s]. *)
Definition uploaded_rows (L : PyLib) (s : session_state) (uploaded : string)
  : list (gmap string pyval) :=
  match schema s, read_csv L uploaded with
  | _ :: _, Return df =>
      let cols := map name (schema s) in
      if decide (filter (λ c, c ∉ columns df) cols = []) then
        imported (attempts L s cols (data (getitem df cols)))
      else []
  | _, _ => []
  end.


(** The schema is well formed: the names are not empty, have no whitespace
    around them and are pairwise distinct. *)
Definition schema_ok (s : session_state) : Prop :=
  NoDup (map name (schema s)) ∧
  Forall (λ f, name f ≠ "" ∧ Str.strip (name f) = name f) (schema s).

(** Without a schema there are no rows. *)
Definition rows_need_schema (s : session_state) : Prop :=
  schema s = [] → rows s = [].

(** * Properties *)

(** ** Stripping *)

Section Characters.

Implicit Types (s ch : string) (l : list string).

Lemma chars_head c r : ∃ t rest, Str.chars (String c r) = String c t :: rest.
Proof.
  simpl. destruct (Str.chars r) as [|ch rest]; [by eexists _, _|].
  destruct (Str.continues r); by eexists _, _.
Qed.

Lemma chars_continues r ch rest :
  Str.chars r = ch :: rest → Str.continues ch = Str.continues r.
Proof.
  destruct r as [|d r]; [done|].
  destruct (chars_head d r) as (t & rest' & ->). by intros [= <- _].
Qed.

Lemma chars_chunked s : chunked (Str.chars s).
Proof.
  induction s as [|c r [Hone Hlead]]; [by split|]. simpl.
  destruct (Str.chars r) as [|ch rest] eqn:Hr; [by repeat constructor|].
  pose proof (chars_continues r ch rest Hr) as Hch.
  apply Forall_cons in Hone as [Hch1 Hone]. simpl in Hlead.
  destruct (Str.continues r) eqn:Hcont.
  - split; [|done]. constructor; [|done]. simpl.
    destruct ch as [|d t]; [done|]. simpl in *. by rewrite Hch.
  - split; [by repeat constructor|]. simpl. by constructor.
Qed.

Lemma chars_cons c r :
  Str.chars (String c r) =
    match Str.chars r with
    | ch :: rest =>
        if Str.continues r then String c ch :: rest
        else String c EmptyString :: ch :: rest
    | [] => [String c EmptyString]
    end.
Proof. done. Qed.

Lemma chars_char c t s :
  trails t = true → Str.continues s = false →
  Str.chars (String c (t +:+ s)) = String c t :: Str.chars s.
Proof.
  revert c. induction t as [|d t IH]; intros c Ht Hs.
  - change ("" +:+ s) with s. rewrite chars_cons, Hs. by destruct (Str.chars s).
  - simpl in Ht. apply andb_prop in Ht as [Hd Ht].
    change (String d t +:+ s) with (String d (t +:+ s)).
    rewrite chars_cons, (IH d Ht Hs). simpl. by rewrite Hd.
Qed.

Lemma join_continues l :
  Forall (λ ch, one_char ch = true) l →
  Forall (λ ch, Str.continues ch = false) l →
  Str.continues (Str.join l) = false.
Proof.
  destruct l as [|ch l]; [done|].
  intros [Hone _]%Forall_cons [Hlead _]%Forall_cons.
  by destruct ch.
Qed.

Lemma chars_join l : chunked l → Str.chars (Str.join l) = l.
Proof.
  induction l as [|ch l IH]; intros [Hone Hlead]; [done|].
  apply Forall_cons in Hone as [Hch Hone]. simpl in Hlead.
  destruct ch as [|c t]; [done|]. simpl in Hch. simpl Str.join.
  change (String c t +:+ Str.join l) with (String c (t +:+ Str.join l)).
  rewrite chars_char; [|done|by apply join_continues].
  rewrite IH; [done|]. split; [done|]. destruct Hlead; [constructor|done].
Qed.

Lemma join_empty l :
  Forall (λ ch, one_char ch = true) l → Str.join l = "" → l = [].
Proof.
  destruct l as [|ch l]; [done|]. intros [Hch _]%Forall_cons.
  by destruct ch.
Qed.

Lemma lstrip_chars_Forall (P : string → Prop) l :
  Forall P l → Forall P (Str.lstrip_chars l).
Proof.
  induction 1 as [|ch l Hch Hl IH]; simpl; [constructor|].
  destruct (Str.isspace ch); [done|by constructor].
Qed.

Lemma rstrip_chars_Forall (P : string → Prop) l :
  Forall P l → Forall P (Str.rstrip_chars l).
Proof.
  induction 1 as [|ch l Hch Hl IH]; simpl; [constructor|].
  destruct (Str.rstrip_chars l).
  - destruct (Str.isspace ch); by repeat constructor.
  - by constructor.
Qed.

Lemma chunked_tail ch l : chunked (ch :: l) → chunked l.
Proof.
  intros [[_ Hone]%Forall_cons Hlead]. split; [done|].
  simpl in Hlead. destruct Hlead; [constructor|done].
Qed.

Lemma lstrip_chars_chunked l : chunked l → chunked (Str.lstrip_chars l).
Proof.
  induction l as [|ch l IH]; intros Hl; [done|]. simpl.
  destruct (Str.isspace ch); [|done]. apply IH. by eapply chunked_tail.
Qed.

Lemma rstrip_chars_chunked l : chunked l → chunked (Str.rstrip_chars l).
Proof.
  destruct l as [|ch l]; [done|]. intros [Hone Hlead]. simpl in *.
  apply Forall_cons in Hone as [Hch Hone].
  pose proof (rstrip_chars_Forall _ _ Hone) as Hone'.
  pose proof (rstrip_chars_Forall _ _ Hlead) as Hlead'.
  destruct (Str.rstrip_chars l).
  - destruct (Str.isspace ch); by repeat constructor.
  - split; [by constructor|done].
Qed.

Lemma rstrip_chars_nil l :
  Str.rstrip_chars l = [] ↔ forallb Str.isspace l = true.
Proof.
  induction l as [|ch l IH]; simpl; [done|].
  destruct (Str.rstrip_chars l) eqn:Hr.
  - destruct (Str.isspace ch); simpl.
    + split; [intros _; by apply IH | done].
    + split; discriminate.
  - split; [discriminate|].
    intros [_ Hall]%andb_prop. apply IH in Hall. discriminate.
Qed.

Lemma forallb_lstrip_chars l :
  forallb Str.isspace (Str.lstrip_chars l) = forallb Str.isspace l.
Proof.
  induction l as [|ch l IH]; simpl; [done|].
  destruct (Str.isspace ch) eqn:Hch; simpl; [done|]. by rewrite Hch.
Qed.

Lemma lstrip_chars_head l :
  Str.lstrip_chars l = [] ∨
  ∃ ch r, Str.lstrip_chars l = ch :: r ∧ Str.isspace ch = false.
Proof.
  induction l as [|ch l IH]; simpl; [by left|].
  destruct (Str.isspace ch) eqn:Hch; [done|]. right. eauto.
Qed.

Lemma rstrip_chars_head ch l :
  Str.isspace ch = false → ∃ r, Str.rstrip_chars (ch :: l) = ch :: r.
Proof.
  intros Hch. simpl. destruct (Str.rstrip_chars l); [rewrite Hch|]; eauto.
Qed.

Lemma rstrip_chars_twice l :
  Str.rstrip_chars (Str.rstrip_chars l) = Str.rstrip_chars l.
Proof.
  induction l as [|ch l IH]; simpl; [done|].
  destruct (Str.rstrip_chars l) as [|d r] eqn:Hr.
  - destruct (Str.isspace ch) eqn:Hch; simpl; [done|]. by rewrite Hch.
  - simpl in *. by rewrite IH.
Qed.

End Characters.

Lemma strip_empty s : Str.strip s = "" ↔ Str.all_space s = true.
Proof.
  unfold Str.strip, Str.all_space. rewrite <- forallb_lstrip_chars, <- rstrip_chars_nil.
  split; [|by intros ->].
  apply join_empty. apply rstrip_chars_Forall, lstrip_chars_Forall.
  apply chars_chunked.
Qed.

Lemma strip_strip s : Str.strip (Str.strip s) = Str.strip s.
Proof.
  unfold Str.strip.
  rewrite chars_join
    by apply rstrip_chars_chunked, lstrip_chars_chunked, chars_chunked.
  destruct (lstrip_chars_head (Str.chars s)) as [->|(ch & r & -> & Hch)]; [done|].
  destruct (rstrip_chars_head ch r Hch) as [r' Hr]. rewrite Hr.
  simpl Str.lstrip_chars. rewrite Hch, <- Hr. by rewrite rstrip_chars_twice.
Qed.

(** ** The raw value of a field *)

Section Validation.

Variable L : PyLib.
Implicit Types (row_dict out : gmap string pyval) (f : field).

Lemma raw_value_blank row_dict nm :
  raw_value row_dict nm = PyNone ↔ blank (row_dict !! nm).
Proof.
  unfold raw_value, blank. destruct (row_dict !! nm) as [v|]; simpl.
  - destruct v; simpl; try (split; [discriminate | intros [?|[?|(?&?&?)]]; congruence]).
    + split; [by right; left | done].
    + case_bool_decide as Hs.
      * split; [intros _ | done]. right. right. eexists. split; [done|].
        by apply strip_empty.
      * split; [discriminate|]. intros [?|[?|(s'&[= <-]&Hs')]]; try discriminate.
        by apply strip_empty in Hs'.
  - split; [by left | done].
Qed.

Lemma loop_body_field_value f row_dict out :
  loop_body L f row_dict out =
    match field_value L row_dict f with
    | Return v => Return (Next (<[name f := v]> out))
    | Raise e => Return (Exit (Failed (cast_error (name f) (type f) e)))
    end.
Proof.
  unfold loop_body, field_value.
  destruct (raw_value row_dict (name f)); try done;
    by destruct (cast L (type f) _).
Qed.

Lemma validate_loop_cons f fields row_dict out :
  validate_loop L (f :: fields) row_dict out =
    match field_value L row_dict f with
    | Return v => validate_loop L fields row_dict (<[name f := v]> out)
    | Raise e => Return (Failed (cast_error (name f) (type f) e))
    end.
Proof.
  simpl. rewrite loop_body_field_value.
  by destruct (field_value L row_dict f).
Qed.

Lemma validate_loop_returns fields row_dict out :
  ∃ r, validate_loop L fields row_dict out = Return r.
Proof.
  revert out. induction fields as [|f fields IH]; intros out.
  - by eexists.
  - rewrite validate_loop_cons. destruct (field_value L row_dict f); eauto.
Qed.

(** The fields of [pre] cast, and [f] is the first that does not. *)
Lemma validate_loop_first_failure pre f post row_dict out e :
  Forall (λ g, ¬ raises (field_value L row_dict g)) pre →
  field_value L row_dict f = Raise e →
  validate_loop L (pre ++ f :: post) row_dict out =
    Return (Failed (cast_error (name f) (type f) e)).
Proof.
  intros Hpre Hf. revert out.
  induction Hpre as [|g pre Hg _ IH]; intros out.
  - simpl app. by rewrite validate_loop_cons, Hf.
  - change ((g :: pre) ++ f :: post) with (g :: (pre ++ f :: post)).
    rewrite validate_loop_cons.
    destruct (field_value L row_dict g) as [v|e'] eqn:Hv; [apply IH|].
    exfalso. apply Hg. by exists e'.
Qed.

(** A list with a failing field splits at the first one. *)
Lemma first_failure_split fields row_dict :
  Exists (λ g, raises (field_value L row_dict g)) fields →
  ∃ pre f post e,
    fields = pre ++ f :: post ∧
    Forall (λ g, ¬ raises (field_value L row_dict g)) pre ∧
    field_value L row_dict f = Raise e.
Proof.
  induction fields as [|g fields IH]; intros Hex; [by inversion Hex|].
  destruct (field_value L row_dict g) as [v|e] eqn:Hg.
  - inversion Hex as [? ? [e He]|? ? Hex']; subst; [congruence|].
    destruct (IH Hex') as (pre & f & post & e & -> & Hpre & Hf).
    exists (g :: pre), f, post, e. split_and!; [done| |done].
    constructor; [|done]. intros [e' He']. congruence.
  - exists [], g, fields, e. by split_and!.
Qed.

(** A rejected row is rejected for one of the fields. *)
Lemma validate_loop_failed fields row_dict out msg :
  validate_loop L fields row_dict out = Return (Failed msg) →
  ∃ g e, g ∈ fields ∧ field_value L row_dict g = Raise e ∧
         msg = cast_error (name g) (type g) e.
Proof.
  revert out. induction fields as [|f fields IH]; intros out; [done|].
  rewrite validate_loop_cons.
  destruct (field_value L row_dict f) as [v|e] eqn:Hv.
  - intros (g & e & Hg & ? & ?)%IH. exists g, e. split_and!; try done. by right.
  - intros [= <-]. exists f, e. split_and!; try done. by left.
Qed.

(** The keys and the values of a row that is returned. *)
Lemma validate_loop_ok fields row_dict out out' :
  validate_loop L fields row_dict out = Return (Ok out') →
  dom out' = list_to_set (map name fields) ∪ dom out ∧
  (∀ nm, nm ∉ map name fields → out' !! nm = out !! nm) ∧
  (∀ nm, nm ∈ map name fields →
     ∃ f v, f ∈ fields ∧ name f = nm ∧
            field_value L row_dict f = Return v ∧ out' !! nm = Some v).
Proof.
  revert out. induction fields as [|f fields IH]; intros out.
  - simpl. intros [= <-]. split_and!; [set_solver|done|].
    intros nm Hnm. by apply elem_of_nil in Hnm.
  - rewrite validate_loop_cons.
    destruct (field_value L row_dict f) as [v|e] eqn:Hv; [|done].
    intros (Hdom & Hout & Hin)%IH. split_and!.
    + rewrite Hdom, dom_insert_L. set_solver.
    + intros nm Hnm. apply not_elem_of_cons in Hnm as [Hne Hnm].
      rewrite (Hout nm Hnm). by apply lookup_insert_ne.
    + intros nm Hnm.
      destruct (decide (nm ∈ map name fields)) as [Hnm'|Hnm'].
      * destruct (Hin nm Hnm') as (g & w & Hg & ? & ? & ?).
        exists g, w. split_and!; try done. by right.
      * apply elem_of_cons in Hnm as [->|]; [|done].
        exists f, v. split_and!; try done; [by left|].
        rewrite (Hout _ Hnm'). apply lookup_insert_eq.
Qed.

Lemma field_value_blank row_dict g :
  blank (row_dict !! name g) → field_value L row_dict g = Return PyNone.
Proof. intros Hg%raw_value_blank. unfold field_value. by rewrite Hg. Qed.

Lemma validate_and_cast_blank_entry s row_dict f out :
  f ∈ schema s → blank (row_dict !! name f) →
  validate_and_cast L s row_dict = Return (Ok out) →
  out !! name f = Some PyNone.
Proof.
  intros Hf Hblank (_ & _ & Hin)%validate_loop_ok.
  destruct (Hin (name f)) as (g & v & _ & Hname & Hv & Hout).
  { apply list_elem_of_fmap. eauto. }
  rewrite field_value_blank in Hv by by rewrite Hname. by injection Hv as <-.
Qed.

End Validation.

(** ** The CSV upload *)

Section Upload.

Variable L : PyLib.

Lemma validate_and_cast_set_rows v s row_dict :
  validate_and_cast L (set_rows v s) row_dict = validate_and_cast L s row_dict.
Proof. done. Qed.

Lemma attempts_set_rows v s cols rs :
  attempts L (set_rows v s) cols rs = attempts L s cols rs.
Proof. done. Qed.

Lemma import_loop_spec cols rs s pg bad_rows added :
  import_loop L cols rs bad_rows added {| session := s; page := pg |} =
    (Done (bad_rows ++ failures (attempts L s cols rs),
           added + length (imported (attempts L s cols rs))),
     {| session := set_rows (rows s ++ imported (attempts L s cols rs)) s;
        page := pg |}).
Proof.
  revert s bad_rows added.
  induction rs as [|r rs IH]; intros s bad_rows added.
  - simpl. unfold ret. rewrite !app_nil_r, Nat.add_0_r. by destruct s.
  - simpl. unfold seq_bind, get_state, lift, append_row, modify_state. simpl.
    destruct (validate_loop_returns L (schema s) (to_dict cols r) ∅) as [res Hres].
    unfold validate_and_cast at 1. rewrite Hres.
    unfold validate_and_cast at 1 2 3. rewrite Hres.
    destruct res as [out|msg]; simpl.
    + rewrite IH, attempts_set_rows. simpl.
      by rewrite <- !(assoc_L (++)), <- Nat.add_assoc.
    + rewrite IH. by rewrite <- !(assoc_L (++)).
Qed.

Lemma length_attempts s cols rs : length (attempts L s cols rs) = length rs.
Proof. apply length_map. Qed.

Lemma imported_failures_length s cols rs :
  length (imported (attempts L s cols rs)) + length (failures (attempts L s cols rs))
  = length rs.
Proof.
  induction rs as [|r rs IH]; [done|]. simpl.
  destruct (validate_loop_returns L (schema s) (to_dict cols r) ∅) as [res Hres].
  unfold validate_and_cast. rewrite Hres.
  destruct res; simpl; fold (attempts L s cols rs); lia.
Qed.

Lemma no_missing_columns (cols present : list string) :
  Forall (λ c, c ∈ present) cols → filter (λ c, c ∉ present) cols = [].
Proof.
  induction 1 as [|c cols Hc _ IH]; [done|].
  rewrite filter_cons. by case_decide.
Qed.

Lemma cell_getitem (cols : list string) (g : string → pyval) c :
  c ∈ cols → cell cols (map g cols) c = g c.
Proof.
  unfold cell. induction cols as [|a cols IH]; intros Hc.
  - by apply elem_of_nil in Hc.
  - simpl. destruct (decide (a = c)) as [->|Hne].
    + by rewrite lookup_insert_eq.
    + rewrite lookup_insert_ne by done. apply IH.
      by apply elem_of_cons in Hc as [?|?].
Qed.

Lemma getitem_getitem df cols : getitem (getitem df cols) cols = getitem df cols.
Proof.
  unfold getitem. simpl. f_equal. rewrite map_map.
  apply map_ext. intros r. apply map_ext_in. intros c Hc.
  apply cell_getitem. by apply list_elem_of_In.
Qed.

(** The upload of a frame that has every column of the schema. *)
Lemma upload_csv_import s pg uploaded df :
  read_csv L uploaded = Return df →
  Forall (λ c, c ∈ columns df) (map name (schema s)) →
  upload_csv L uploaded {| session := s; page := pg |} =
    let tries := attempts L s (map name (schema s))
                   (data (getitem df (map name (schema s)))) in
    (Thrown RerunException,
     {| session := set_rows (rows s ++ imported tries) s;
        page := pg ++ import_report L tries |}).
Proof.
  intros Hread Hcols. unfold upload_csv, try_except_Exception, seq_bind at 1.
  unfold lift at 1. rewrite Hread. unfold seq_bind at 1, get_state. simpl.
  rewrite (no_missing_columns _ _ Hcols).
  rewrite bool_decide_eq_false_2 by (by intros []).
  unfold seq_bind at 1. rewrite import_loop_spec.
  unfold import_report, seq_bind, st, st_rerun, ret. simpl.
  case_bool_decide; simpl; by rewrite <- ?(assoc_L (++)), ?app_nil_r.
Qed.

(** The upload of a frame that lacks a column of the schema. *)
Lemma upload_csv_abort s pg uploaded df :
  read_csv L uploaded = Return df →
  filter (λ c, c ∉ columns df) (map name (schema s)) ≠ [] →
  upload_csv L uploaded {| session := s; page := pg |} =
    (Done tt,
     {| session := s;
        page := pg ++ [st_error ("Missing columns in uploaded CSV: " +:+
                 repr_list L (filter (λ c, c ∉ columns df) (map name (schema s))))] |}).
Proof.
  intros Hread Hmiss. unfold upload_csv, try_except_Exception, seq_bind at 1.
  unfold lift at 1. rewrite Hread. unfold seq_bind at 1, get_state. simpl.
  by rewrite bool_decide_eq_true_2.
Qed.

(** The upload of a file that [pd.read_csv] rejects. *)
Lemma upload_csv_unreadable s pg uploaded e :
  read_csv L uploaded = Raise e →
  upload_csv L uploaded {| session := s; page := pg |} =
    (Done tt, {| session := s; page := pg ++ [st_error ("Error reading CSV: " +:+ e)] |}).
Proof.
  intros Hread. unfold upload_csv, try_except_Exception, seq_bind at 1.
  unfold lift at 1. by rewrite Hread.
Qed.

End Upload.

(** ** Saving the schema *)

Section Save.

Implicit Types (tf : gmap string string) (seen : gset string).

Lemma save_loop_cons i idx tf acc seen :
  save_loop (i :: idx) tf acc seen =
    if decide (draft_name tf i = "") then
      (false, "Variable name #" +:+ pretty (i + 1) +:+ " is empty.", acc)
    else if decide (draft_name tf i ∈ seen) then
      (false, "Duplicate variable name: '" +:+ draft_name tf i +:+ "'.", acc)
    else save_loop idx tf (acc ++ [draft_field tf i]) ({[draft_name tf i]} ∪ seen).
Proof. done. Qed.

(** The loop over [range(lo, lo + n)] when nothing is wrong there. *)
Lemma save_loop_clean n : ∀ lo idx tf acc seen,
  (∀ j, lo ≤ j < lo + n → draft_name tf j ≠ "" ∧ (draft_name tf j ∉ seen) ∧
     (∀ k, lo ≤ k < j → draft_name tf k ≠ draft_name tf j)) →
  save_loop (seq lo n ++ idx) tf acc seen =
    save_loop idx tf (acc ++ map (draft_field tf) (seq lo n))
      (list_to_set (map (draft_name tf) (seq lo n)) ∪ seen).
Proof.
  induction n as [|n IH]; intros lo idx tf acc seen Hclean.
  - simpl. rewrite app_nil_r. f_equal. set_solver.
  - simpl seq. simpl app. rewrite save_loop_cons.
    destruct (Hclean lo ltac:(lia)) as (Hne & Hseen & _).
    rewrite !decide_False by done.
    rewrite IH.
    + simpl. rewrite <- (assoc_L (++)). simpl. f_equal. set_solver.
    + intros j Hj. destruct (Hclean j ltac:(lia)) as (? & ? & Hk).
      split_and!; [done| |intros k ?; apply Hk; lia].
      apply not_elem_of_union. split; [|done].
      rewrite elem_of_singleton. intros Heq. by apply (Hk lo ltac:(lia)).
Qed.

Lemma clean_before_range tf i :
  clean_before tf i →
  ∀ j, 0 ≤ j < 0 + i → draft_name tf j ≠ "" ∧ (draft_name tf j ∉ (∅ : gset string)) ∧
     (∀ k, 0 ≤ k < j → draft_name tf k ≠ draft_name tf j).
Proof.
  intros Hclean j Hj. destruct (Hclean j ltac:(lia)) as [? Hk].
  split_and!; [done|set_solver|]. intros k ?. apply Hk. lia.
Qed.

Lemma range_split i n : i < n → seq 0 n = seq 0 i ++ i :: seq (S i) (n - S i).
Proof.
  intros Hi. replace n with (i + S (n - S i)) at 1 by lia.
  by rewrite seq_app.
Qed.

Lemma seen_names tf i nm :
  nm ∈ (list_to_set (map (draft_name tf) (seq 0 i)) ∪ ∅ : gset string) ↔
  ∃ k, k < i ∧ draft_name tf k = nm.
Proof.
  rewrite elem_of_union, elem_of_list_to_set, list_elem_of_fmap.
  split.
  - intros [(k & -> & Hk%elem_of_seq)|[]%not_elem_of_empty].
    exists k. split; [lia|done].
  - intros (k & Hk & <-). left. exists k. split; [done|].
    apply elem_of_seq. lia.
Qed.

(** The scan stops at an empty name. *)
Lemma save_loop_empty_name tf n i :
  i < n → clean_before tf i → draft_name tf i = "" →
  ∃ acc, save_loop (seq 0 n) tf [] ∅ =
    (false, "Variable name #" +:+ pretty (i + 1) +:+ " is empty.", acc).
Proof.
  intros Hi Hclean Hempty. rewrite (range_split i n Hi).
  rewrite save_loop_clean by by apply clean_before_range.
  rewrite save_loop_cons, decide_True by done. by eexists.
Qed.

(** The scan stops at a name it has seen. *)
Lemma save_loop_duplicate tf n i k :
  i < n → clean_before tf i → draft_name tf i ≠ "" →
  k < i → draft_name tf k = draft_name tf i →
  ∃ acc, save_loop (seq 0 n) tf [] ∅ =
    (false, "Duplicate variable name: '" +:+ draft_name tf i +:+ "'.", acc).
Proof.
  intros Hi Hclean Hne Hk Hdup. rewrite (range_split i n Hi).
  rewrite save_loop_clean by by apply clean_before_range.
  rewrite save_loop_cons, decide_False, decide_True; [by eexists| |done].
  apply seen_names. eauto.
Qed.

(** The scan of a draft with nothing wrong. *)
Lemma save_loop_all tf n :
  clean_before tf n →
  save_loop (seq 0 n) tf [] ∅ = (true, "", map (draft_field tf) (seq 0 n)).
Proof.
  intros Hclean. rewrite <- (app_nil_r (seq 0 n)) at 1.
  by rewrite save_loop_clean by by apply clean_before_range.
Qed.

Lemma save_schema_run s pg :
  save_schema {| session := s; page := pg |} =
    match save_loop (seq 0 (num_vars s)) (temp_fields s) [] ∅ with
    | (true, _, new_schema) =>
        (Thrown RerunException,
         {| session := {| schema := new_schema; rows := []; num_vars := num_vars s;
                          temp_fields := ∅ |};
            page := pg ++ [st_success "Schema saved — now enter data below."] |})
    | (false, msg, _) =>
        (Done tt, {| session := s; page := pg ++ [st_error msg] |})
    end.
Proof.
  unfold save_schema, seq_bind at 1, get_state. simpl.
  destruct (save_loop _ _ _ _) as [[[] msg] new_schema]; simpl; [|done].
  unfold seq_bind, modify_state, st, st_rerun. simpl. done.
Qed.

End Save.

(** ** The keys of the stored rows *)

Section Invariant.

Variable L : PyLib.

Lemma validate_and_cast_keys s row_dict out :
  validate_and_cast L s row_dict = Return (Ok out) →
  dom out = list_to_set (C := gset string) (map name (schema s)).
Proof.
  intros (Hdom & _)%validate_loop_ok. rewrite Hdom. set_solver.
Qed.

Lemma imported_keys s cols rs :
  Forall (λ r : gmap string pyval,
            dom r = list_to_set (C := gset string) (map name (schema s)))
         (imported (attempts L s cols rs)).
Proof.
  induction rs as [|r rs IH]; [constructor|]. simpl.
  destruct (validate_and_cast L s (to_dict cols r)) as [[out|msg]|e] eqn:Hv;
    simpl; try done.
  constructor; [|done]. by eapply validate_and_cast_keys.
Qed.

Lemma missing_columns_nil (cols present : list string) :
  filter (λ c, c ∉ present) cols = [] → Forall (λ c, c ∈ present) cols.
Proof.
  induction cols as [|c cols IH]; [constructor|].
  rewrite filter_cons. case_decide as Hc; [done|].
  intros Hnil. constructor; [|by apply IH].
  by destruct (decide (c ∈ present)).
Qed.

Lemma with_schema_run h s pg :
  with_schema h {| session := s; page := pg |} =
    match schema s with
    | [] =>
        (Done tt,
         {| session := s;
            page := pg ++ [st_info "Define a schema to get started (choose number of variables and click Create fields)."] |})
    | _ => h {| session := s; page := pg |}
    end.
Proof.
  unfold with_schema, seq_bind, get_state. simpl. by destruct (schema s).
Qed.

Lemma add_row_run new_row s pg :
  add_row L new_row {| session := s; page := pg |} =
    match validate_and_cast L s new_row with
    | Return (Ok out) =>
        (Thrown RerunException,
         {| session := set_rows (rows s ++ [out]) s;
            page := pg ++ [st_success "Row added."] |})
    | Return (Failed msg) =>
        (Done tt, {| session := s; page := pg ++ [st_error msg] |})
    | Raise e => (Thrown (Exception e), {| session := s; page := pg |})
    end.
Proof.
  unfold add_row, seq_bind at 1, get_state. simpl.
  unfold seq_bind at 1, lift.
  by destruct (validate_and_cast L s new_row) as [[out|msg]|e].
Qed.

Lemma keys_match_same s s' :
  schema s' = schema s → rows s' = rows s → keys_match s → keys_match s'.
Proof. unfold keys_match. by intros -> ->. Qed.

Lemma keys_match_no_rows s : rows s = [] → keys_match s.
Proof. unfold keys_match. intros ->. constructor. Qed.

Lemma step_keys_match s ev : keys_match s → keys_match (step L s ev).
Proof.
  intros Hs. unfold step. destruct ev; simpl handle.
  - unfold number_input, seq_bind, get_state. simpl.
    case_decide; by eapply keys_match_same.
  - by eapply keys_match_same.
  - unfold edit_field, seq_bind, get_state. simpl.
    case_decide; by eapply keys_match_same.
  - rewrite save_schema_run.
    destruct (save_loop _ _ _ _) as [[[] msg] new_schema]; simpl; [|done].
    by apply keys_match_no_rows.
  - rewrite with_schema_run. destruct (schema s); [done|].
    by apply keys_match_no_rows.
  - rewrite with_schema_run. destruct (schema s); [done|].
    by apply keys_match_no_rows.
  - rewrite with_schema_run. destruct (schema s) eqn:Hsch; [done|].
    rewrite add_row_run.
    destruct (validate_and_cast L s new_row) as [[out|msg]|e] eqn:Hv; simpl; try done.
    unfold keys_match. simpl. apply Forall_app. split; [done|].
    constructor; [|constructor]. by eapply validate_and_cast_keys.
  - rewrite with_schema_run. destruct (schema s) eqn:Hsch; [done|].
    clear Hsch.
    destruct (read_csv L uploaded) as [df|e] eqn:Hread.
    + destruct (decide (filter (λ c, c ∉ columns df) (map name (schema s)) = []))
        as [Hnil|Hmiss].
      * rewrite (upload_csv_import L s [] uploaded df Hread)
          by by apply missing_columns_nil.
        unfold keys_match. simpl. apply Forall_app. split; [done|].
        apply imported_keys.
      * by rewrite (upload_csv_abort L s [] uploaded df Hread Hmiss).
    + by rewrite (upload_csv_unreadable L s [] uploaded e Hread).
Qed.

Lemma foldl_step_keys_match evs : ∀ s,
  keys_match s → keys_match (foldl (step L) s evs).
Proof.
  induction evs as [|ev evs IH]; intros s Hs; [done|].
  simpl. apply IH. by apply step_keys_match.
Qed.

Lemma run_keys_match evs : keys_match (run L evs).
Proof. apply foldl_step_keys_match. by apply keys_match_no_rows. Qed.

End Invariant.

(** * The claims *)

(** C2: when the header of the uploaded CSV has every field name of the
    schema, a row that fails validation does not stop the import. Every data
    row is attempted; the rows that validate are appended to the stored rows
    in file order and the others are skipped; the page then shows a warning
    with at most the first five failure messages, when there is a failure,
    and the number of rows added. *)
Theorem upload_csv_partial_import (L : PyLib) (s : session_state)
    (pg : list st_call) (uploaded : string) (df : DataFrame) :
  read_csv L uploaded = Return df →
  Forall (λ c, c ∈ columns df) (map name (schema s)) →
  let tries := attempts L s (map name (schema s))
                 (data (getitem df (map name (schema s)))) in
  upload_csv L uploaded {| session := s; page := pg |} =
    (Thrown RerunException,
     {| session := set_rows (rows s ++ imported tries) s;
        page := pg ++ import_report L tries |}) ∧
  length tries = length (data df) ∧
  length (imported tries) + length (failures tries) = length (data df) ∧
  length (take 5 (failures tries)) ≤ 5.
Proof.
  intros Hread Hcols tries. split_and!.
  - by apply upload_csv_import.
  - unfold tries. rewrite length_attempts. simpl. apply length_map.
  - unfold tries. rewrite imported_failures_length. simpl. apply length_map.
  - rewrite length_take. lia.
Qed.

Lemma upload_csv_partial_import_witness :
  let w := snd (upload_csv Sample.lib twelve_rows {| session := age_joined; page := [] |}) in
  length (rows (session w)) = 5 ∧
  page w =
    [st_warning ("Some rows failed to import (showing up to 5 errors): " +:+
       Sample.show_list
         (map (λ v, "Error casting field 'age' to number: " +:+
                    "could not convert string to float: '" +:+ v +:+ "'")
              ["three"; "five"; "six"; "eight"; "ten"]));
     st_success "Imported 5 rows from CSV."].
Proof.
  assert (Hread : read_csv Sample.lib twelve_rows = Return twelve_rows_frame)
    by (vm_compute; reflexivity).
  assert (Hcols : Forall (λ c, c ∈ columns twelve_rows_frame)
                         (map name (schema age_joined)))
    by (repeat constructor).
  destruct (upload_csv_partial_import Sample.lib age_joined [] twelve_rows
              twelve_rows_frame Hread Hcols) as (Hrun & _).
  rewrite Hrun. split; vm_compute; reflexivity.
Defined.

(** C3: when the header of the uploaded CSV lacks a field name of the
    schema, the upload shows one error that lists the missing names, which
    are exactly the schema names absent from the header, and the stored rows
    stay as they were. Columns of the file that the schema does not have are
    dropped before the rows are read: the upload does what it does on the
    file without them, and shows no error. *)
Theorem upload_csv_missing_columns (L : PyLib) (s : session_state)
    (pg : list st_call) (uploaded : string) (df : DataFrame) :
  read_csv L uploaded = Return df →
  let cols := map name (schema s) in
  let missing := filter (λ c, c ∉ columns df) cols in
  let w := {| session := s; page := pg |} in
  (∀ c, c ∈ missing ↔ c ∈ cols ∧ c ∉ columns df) ∧
  (missing ≠ [] →
     upload_csv L uploaded w =
       (Done tt,
        {| session := s;
           page := pg ++ [st_error ("Missing columns in uploaded CSV: " +:+
                                    repr_list L missing)] |})) ∧
  (missing = [] →
     (∃ report, page (snd (upload_csv L uploaded w)) = pg ++ report ∧
                ∀ msg, st_error msg ∉ report) ∧
     ∀ uploaded', read_csv L uploaded' = Return (getitem df cols) →
       upload_csv L uploaded w = upload_csv L uploaded' w).
Proof.
  intros Hread cols missing w. split_and!.
  - intros c. unfold missing. by rewrite list_elem_of_filter, (comm (∧)).
  - intros Hmiss. by apply upload_csv_abort.
  - intros Hnil%missing_columns_nil. split.
    + unfold w. rewrite (upload_csv_import L s pg uploaded df Hread Hnil). simpl.
      eexists. split; [done|]. intros msg. unfold import_report.
      case_bool_decide; simpl;
        rewrite ?elem_of_cons, elem_of_nil; naive_solver.
    + intros uploaded' Hread'. subst w cols.
      rewrite (upload_csv_import L s pg uploaded df Hread Hnil).
      rewrite (upload_csv_import L s pg uploaded' _ Hread').
      * cbv zeta. by rewrite getitem_getitem.
      * simpl. apply Forall_forall. auto.
Qed.

Lemma upload_csv_missing_columns_witness :
  upload_csv Sample.lib no_age {| session := age_joined; page := [] |} =
    (Done tt, {| session := age_joined;
                 page := [st_error "Missing columns in uploaded CSV: ['age']"] |}) ∧
  upload_csv Sample.lib twelve_rows {| session := age_joined; page := [] |} =
  upload_csv Sample.lib twelve_rows_projected {| session := age_joined; page := [] |}.
Proof.
  assert (Hread : read_csv Sample.lib no_age =
                  Return (mkframe ["joined"; "note"] [[PyStr "2023-01-01"; PyStr "a"]]))
    by (vm_compute; reflexivity).
  assert (Hread12 : read_csv Sample.lib twelve_rows = Return twelve_rows_frame)
    by (vm_compute; reflexivity).
  split.
  - destruct (upload_csv_missing_columns Sample.lib age_joined [] no_age _ Hread)
      as (_ & Habort & _).
    rewrite Habort; vm_compute; [reflexivity | discriminate].
  - destruct (upload_csv_missing_columns Sample.lib age_joined [] twelve_rows _ Hread12)
      as (_ & _ & Hextra).
    apply Hextra; vm_compute; reflexivity.
Defined.

(** C4: when a value of the raw row fails to cast, [validate_and_cast]
    returns the error of the first field, in schema order, whose value
    fails; the fields after it play no part in the answer; and the form
    shows that error and leaves the stored rows as they were. *)
Theorem first_failing_field_rejects_row (L : PyLib) (s : session_state)
    (pg : list st_call) (row_dict : gmap string pyval) :
  Exists (λ f, raises (field_value L row_dict f)) (schema s) →
  ∃ pre f post e,
    schema s = pre ++ f :: post ∧
    Forall (λ g, ¬ raises (field_value L row_dict g)) pre ∧
    field_value L row_dict f = Raise e ∧
    validate_and_cast L s row_dict =
      Return (Failed (cast_error (name f) (type f) e)) ∧
    (∀ post' out, validate_loop L (pre ++ f :: post') row_dict out =
                    Return (Failed (cast_error (name f) (type f) e))) ∧
    add_row L row_dict {| session := s; page := pg |} =
      (Done tt, {| session := s;
                   page := pg ++ [st_error (cast_error (name f) (type f) e)] |}).
Proof.
  intros (pre & f & post & e & Hsplit & Hpre & Hf)%first_failure_split.
  exists pre, f, post, e.
  assert (Hval : validate_and_cast L s row_dict =
                 Return (Failed (cast_error (name f) (type f) e))).
  { unfold validate_and_cast. rewrite Hsplit.
    by apply validate_loop_first_failure. }
  split_and!; try done.
  - intros post' out. by apply validate_loop_first_failure.
  - by rewrite add_row_run, Hval.
Qed.

Lemma first_failing_field_rejects_row_witness :
  let row := {[ "age" := PyStr "thirty"; "joined" := PyStr "someday" ]} in
  Exists (λ f, raises (field_value Sample.lib row f)) (schema age_joined) ∧
  ∃ pre f post e,
    schema age_joined = pre ++ f :: post ∧
    Forall (λ g, ¬ raises (field_value Sample.lib row g)) pre ∧
    field_value Sample.lib row f = Raise e ∧
    validate_and_cast Sample.lib age_joined row =
      Return (Failed (cast_error (name f) (type f) e)) ∧
    (∀ post' out, validate_loop Sample.lib (pre ++ f :: post') row out =
                    Return (Failed (cast_error (name f) (type f) e))) ∧
    add_row Sample.lib row {| session := age_joined; page := [] |} =
      (Done tt, {| session := age_joined;
                   page := [] ++ [st_error (cast_error (name f) (type f) e)] |}).
Proof.
  intros row.
  assert (Hex : Exists (λ f, raises (field_value Sample.lib row f)) (schema age_joined)).
  { apply Exists_cons_hd. eexists. vm_compute. reflexivity. }
  split; [exact Hex|].
  exact (first_failing_field_rejects_row Sample.lib age_joined [] row Hex).
Defined.

(** C5: "Save schema" scans the draft variables in order and stops at the
    first one that is wrong. When it is variable [i], counted from zero, and
    its name strips to the empty string, the error is
    "Variable name #(i+1) is empty."; when its name is that of an earlier
    variable, the error is "Duplicate variable name: '<name>'.". In both
    cases the session state, the saved schema and the stored rows included,
    is left as it was. *)
Theorem save_schema_stops_at_first_violation (s : session_state)
    (pg : list st_call) (i : nat) :
  i < num_vars s →
  clean_before (temp_fields s) i →
  let nm := draft_name (temp_fields s) i in
  let w := {| session := s; page := pg |} in
  (nm = "" →
     save_schema w =
       (Done tt,
        {| session := s;
           page := pg ++ [st_error ("Variable name #" +:+ pretty (i + 1) +:+
                                    " is empty.")] |})) ∧
  (nm ≠ "" → (∃ k, k < i ∧ draft_name (temp_fields s) k = nm) →
     save_schema w =
       (Done tt,
        {| session := s;
           page := pg ++ [st_error ("Duplicate variable name: '" +:+ nm +:+
                                    "'.")] |})).
Proof.
  intros Hi Hclean nm w. split.
  - intros Hempty. unfold w. rewrite save_schema_run.
    destruct (save_loop_empty_name _ _ _ Hi Hclean Hempty) as [acc ->]. done.
  - intros Hne (k & Hk & Hdup). unfold w. rewrite save_schema_run.
    destruct (save_loop_duplicate _ _ _ _ Hi Hclean Hne Hk Hdup) as [acc ->]. done.
Qed.

Lemma save_schema_stops_at_first_violation_witness :
  let blank_second := with_draft [("name_0", "age"); ("name_1", " " +:+ nbsp); ("name_2", "age")] in
  let same_third := with_draft [("name_0", "età"); ("name_1", "joined"); ("name_2", " età" +:+ em_space)] in
  save_schema {| session := blank_second; page := [] |} =
    (Done tt, {| session := blank_second;
                 page := [st_error "Variable name #2 is empty."] |}) ∧
  save_schema {| session := same_third; page := [] |} =
    (Done tt, {| session := same_third;
                 page := [st_error "Duplicate variable name: 'età'."] |}).
Proof.
  intros blank_second same_third. split.
  - assert (Hi : 1 < num_vars blank_second) by (simpl; lia).
    assert (Hclean : clean_before (temp_fields blank_second) 1).
    { intros j Hj. assert (j = 0) as -> by lia.
      split; [vm_compute; discriminate | intros k Hk; lia]. }
    destruct (save_schema_stops_at_first_violation blank_second [] 1 Hi Hclean)
      as [Hempty _].
    rewrite Hempty; vm_compute; reflexivity.
  - assert (Hi : 2 < num_vars same_third) by (simpl; lia).
    assert (Hclean : clean_before (temp_fields same_third) 2).
    { intros j Hj. assert (j = 0 ∨ j = 1) as [-> | ->] by lia.
      - split; [vm_compute; discriminate | intros k Hk; lia].
      - split; [vm_compute; discriminate |].
        intros k Hk. assert (k = 0) as -> by lia. vm_compute. discriminate. }
    destruct (save_schema_stops_at_first_violation same_third [] 2 Hi Hclean)
      as [_ Hdup].
    rewrite Hdup; [vm_compute; reflexivity | vm_compute; discriminate |].
    exists 0. split; [lia | vm_compute; reflexivity].
Defined.

(** C6: a run of "Save schema" either fails, and leaves the session state
    as it was, or succeeds, and then the stored rows are empty and the draft
    is cleared together with the replacement of the schema. A draft in which
    nothing is wrong succeeds, whatever the schema and the rows were before,
    the case of the same schema saved again included. *)
Theorem save_schema_clears_rows (s : session_state) (pg : list st_call) :
  let r := save_schema {| session := s; page := pg |} in
  ((fst r = Done tt ∧ session (snd r) = s) ∨
   (fst r = Thrown RerunException ∧ rows (session (snd r)) = [] ∧
    temp_fields (session (snd r)) = ∅)) ∧
  (clean_before (temp_fields s) (num_vars s) →
   r = (Thrown RerunException,
        {| session := {| schema := map (draft_field (temp_fields s))
                                       (seq 0 (num_vars s));
                         rows := []; num_vars := num_vars s; temp_fields := ∅ |};
           page := pg ++ [st_success "Schema saved — now enter data below."] |})).
Proof.
  intros r. unfold r. rewrite save_schema_run. split.
  - destruct (save_loop _ _ _ _) as [[[] msg] new_schema]; simpl; auto.
  - intros Hclean. by rewrite save_loop_all.
Qed.

Lemma save_schema_clears_rows_witness :
  let s := {| schema := schema age_joined;
              rows := [ {[ "age" := nan; "joined" := PyNone ]} ];
              num_vars := 2;
              temp_fields := list_to_map [("name_0", "age"); ("type_0", "number");
                                          ("name_1", "joined"); ("type_1", "date")] |} in
  clean_before (temp_fields s) (num_vars s) ∧
  save_schema {| session := s; page := [] |} =
    (Thrown RerunException,
     {| session := {| schema := schema s; rows := []; num_vars := 2; temp_fields := ∅ |};
        page := [st_success "Schema saved — now enter data below."] |}).
Proof.
  intros s.
  assert (Hclean : clean_before (temp_fields s) (num_vars s)).
  { intros j Hj. assert (j = 0 ∨ j = 1) as [-> | ->] by (simpl in Hj; lia).
    - split; [vm_compute; discriminate | intros k Hk; lia].
    - split; [vm_compute; discriminate |].
      intros k Hk. assert (k = 0) as -> by lia. vm_compute. discriminate. }
  split; [exact Hclean|].
  destruct (save_schema_clears_rows s []) as [_ Hsave].
  rewrite (Hsave Hclean). vm_compute. reflexivity.
Defined.

(** C7: for a field of any type whose raw entry is missing, is [None] or is
    a string of whitespace, the cast gives [None] and not an error: a row
    that is accepted holds [None] under that field, and a row that is
    rejected is rejected for a field whose raw entry is none of these. *)
Theorem blank_entry_casts_to_None (L : PyLib) (s : session_state)
    (row_dict : gmap string pyval) (f : field) :
  f ∈ schema s →
  blank (row_dict !! name f) →
  field_value L row_dict f = Return PyNone ∧
  (∀ out, validate_and_cast L s row_dict = Return (Ok out) →
          out !! name f = Some PyNone) ∧
  (∀ msg, validate_and_cast L s row_dict = Return (Failed msg) →
          ∃ g e, g ∈ schema s ∧ ¬ blank (row_dict !! name g) ∧
                 cast L (type g) (raw_value row_dict (name g)) = Raise e ∧
                 msg = cast_error (name g) (type g) e).
Proof.
  intros Hf Hblank. split_and!.
  - by apply field_value_blank.
  - intros out Hout. by eapply validate_and_cast_blank_entry.
  - intros msg (g & e & Hg & He & ->)%validate_loop_failed.
    exists g, e. split_and!; try done.
    + intros Hb. by rewrite field_value_blank in He.
    + unfold field_value in He. by destruct (raw_value row_dict (name g)).
Qed.

Lemma blank_entry_casts_to_None_witness :
  let row := {[ "a" := PyStr "   "; "b" := PyStr (nbsp +:+ " " +:+ em_space);
                "c" := PyStr "  "; "e" := PyStr "x" ]} in
  (mkfield "b" "long text" ∈ schema four_types ∧ blank (row !! "b")) ∧
  (mkfield "c" "number" ∈ schema four_types ∧ blank (row !! "c")) ∧
  (mkfield "d" "date" ∈ schema four_types ∧ blank (row !! "d")) ∧
  field_value Sample.lib row (mkfield "b" "long text") = Return PyNone ∧
  field_value Sample.lib row (mkfield "c" "number") = Return PyNone ∧
  field_value Sample.lib row (mkfield "d" "date") = Return PyNone ∧
  validate_and_cast Sample.lib four_types row =
    Return (Ok {[ "a" := PyNone; "b" := PyNone; "c" := PyNone; "d" := PyNone ]}).
Proof.
  intros row.
  assert (Hb : mkfield "b" "long text" ∈ schema four_types) by (repeat constructor).
  assert (Hc : mkfield "c" "number" ∈ schema four_types) by (repeat constructor).
  assert (Hd : mkfield "d" "date" ∈ schema four_types) by (repeat constructor).
  assert (Hbb : blank (row !! name (mkfield "b" "long text"))).
  { right. right. exists (nbsp +:+ " " +:+ em_space). split; vm_compute; reflexivity. }
  assert (Hbc : blank (row !! name (mkfield "c" "number"))).
  { right. right. exists "  ". split; vm_compute; reflexivity. }
  assert (Hbd : blank (row !! name (mkfield "d" "date"))).
  { left. vm_compute. reflexivity. }
  split; [by split|]. split; [by split|]. split; [by split|].
  split; [exact (proj1 (blank_entry_casts_to_None Sample.lib four_types row _ Hb Hbb))|].
  split; [exact (proj1 (blank_entry_casts_to_None Sample.lib four_types row _ Hc Hbc))|].
  split; [exact (proj1 (blank_entry_casts_to_None Sample.lib four_types row _ Hd Hbd))|].
  vm_compute. reflexivity.
Defined.

(** C8: a row that [validate_and_cast] returns has exactly the field names
    of the schema as its keys, whatever keys the raw row has, and holds
    [None] under a field name that the raw row lacks. Hence, after any
    sequence of runs of the script, every stored row has exactly the field
    names of the current schema as its keys. *)
Theorem stored_rows_have_schema_keys (L : PyLib) (s : session_state)
    (row_dict out : gmap string pyval) (evs : list event) :
  validate_and_cast L s row_dict = Return (Ok out) →
  dom out = list_to_set (C := gset string) (map name (schema s)) ∧
  (∀ f, f ∈ schema s → row_dict !! name f = None → out !! name f = Some PyNone) ∧
  Forall (λ r : gmap string pyval,
            dom r = list_to_set (C := gset string) (map name (schema (run L evs))))
         (rows (run L evs)).
Proof.
  intros Hok. split_and!.
  - by eapply validate_and_cast_keys.
  - intros f Hf Hmiss. eapply validate_and_cast_blank_entry; [done| |done].
    by left.
  - apply run_keys_match.
Qed.

Lemma stored_rows_have_schema_keys_witness :
  let row := {[ "age" := PyStr "30"; "shoe size" := PyStr "43" ]} in
  let out := {[ "age" := PyFloat (Sample.double 30); "joined" := PyNone ]} in
  let evs := [NumberInput 2; CreateFields;
              EditField 0 "age" "number"; EditField 1 "joined" "date";
              SaveSchema; AddRow row; Upload twelve_rows; Upload no_age] in
  validate_and_cast Sample.lib age_joined row = Return (Ok out) ∧
  dom out = list_to_set (C := gset string) (map name (schema age_joined)) ∧
  out !! "joined" = Some PyNone ∧
  length (rows (run Sample.lib evs)) = 6 ∧
  Forall (λ r : gmap string pyval,
            dom r = list_to_set (C := gset string)
                      (map name (schema (run Sample.lib evs))))
         (rows (run Sample.lib evs)).
Proof.
  intros row out evs.
  assert (Hok : validate_and_cast Sample.lib age_joined row = Return (Ok out))
    by (vm_compute; reflexivity).
  destruct (stored_rows_have_schema_keys Sample.lib age_joined row out evs Hok)
    as (Hdom & Hnone & Hrows).
  split_and!; [exact Hok | exact Hdom | | vm_compute; reflexivity | exact Hrows].
  apply (Hnone (mkfield "joined" "date")); [repeat constructor | vm_compute; reflexivity].
Defined.

(** C9: [validate_and_cast] always returns: an exception of a cast is
    caught and comes back as the error value. Neither the form nor the CSV
    upload ends with an [Exception]: they end normally or with the rerun
    that they ask for themselves, and an exception of [pd.read_csv] is shown
    as the error "Error reading CSV: ..." while the session state stays as
    it was. *)
Theorem no_exception_reaches_the_user (L : PyLib) (s : session_state)
    (pg : list st_call) (row_dict : gmap string pyval) (uploaded : string) :
  let w := {| session := s; page := pg |} in
  (∃ r, validate_and_cast L s row_dict = Return r) ∧
  (∀ f e, f ∈ schema s → field_value L row_dict f = Raise e →
          ∃ msg, validate_and_cast L s row_dict = Return (Failed msg)) ∧
  (fst (add_row L row_dict w) = Done tt ∨
   fst (add_row L row_dict w) = Thrown RerunException) ∧
  (fst (upload_csv L uploaded w) = Done tt ∨
   fst (upload_csv L uploaded w) = Thrown RerunException) ∧
  (∀ e, read_csv L uploaded = Raise e →
        upload_csv L uploaded w =
          (Done tt, {| session := s;
                       page := pg ++ [st_error ("Error reading CSV: " +:+ e)] |})).
Proof.
  intros w. split_and!.
  - apply validate_loop_returns.
  - intros f e Hf He.
    destruct (first_failure_split L (schema s) row_dict) as
      (pre & g & post & e' & Hsplit & Hpre & Hg).
    { apply Exists_exists. exists f. split; [done|]. by exists e. }
    eexists. unfold validate_and_cast. rewrite Hsplit.
    by apply validate_loop_first_failure.
  - unfold w. rewrite add_row_run.
    destruct (validate_loop_returns L (schema s) row_dict ∅) as [r Hr].
    unfold validate_and_cast. rewrite Hr. destruct r; simpl; auto.
  - unfold w. destruct (read_csv L uploaded) as [df|e] eqn:Hread.
    + destruct (decide (filter (λ c, c ∉ columns df) (map name (schema s)) = []))
        as [Hnil|Hmiss].
      * rewrite (upload_csv_import L s pg uploaded df Hread)
          by by apply missing_columns_nil.
        by right.
      * rewrite (upload_csv_abort L s pg uploaded df Hread Hmiss). by left.
    + rewrite (upload_csv_unreadable L s pg uploaded e Hread). by left.
  - intros e Hread. by apply upload_csv_unreadable.
Qed.

Lemma no_exception_reaches_the_user_witness :
  let row := {[ "age" := PyStr "thirty"; "joined" := PyStr "someday" ]} in
  validate_and_cast Sample.lib age_joined row =
    Return (Failed "Error casting field 'age' to number: could not convert string to float: 'thirty'") ∧
  read_csv Sample.lib "" = Raise "No columns to parse from file" ∧
  upload_csv Sample.lib "" {| session := age_joined; page := [] |} =
    (Done tt, {| session := age_joined;
                 page := [st_error "Error reading CSV: No columns to parse from file"] |}).
Proof.
  intros row.
  destruct (no_exception_reaches_the_user Sample.lib age_joined [] row "")
    as (_ & Hfail & _ & _ & Hread).
  assert (Hr : read_csv Sample.lib "" = Raise "No columns to parse from file")
    by (vm_compute; reflexivity).
  split_and!; [vm_compute; reflexivity | exact Hr |].
  rewrite (Hread _ Hr). vm_compute. reflexivity.
Defined.

(** C10: the empty-string handling turns into [None] only a missing entry,
    [None] and a string of whitespace. A float NaN, which is what pandas
    gives for an empty CSV field, is none of these: it is cast like any
    other value, a short text or long text field stores the string "nan"
    and a number field stores the float NaN, and the row is accepted. *)
Theorem nan_entry_is_cast_as_a_value (L : PyLib) (row_dict : gmap string pyval)
    (nm : string) (s : session_state) :
  row_dict !! nm = Some nan →
  (∀ nm', raw_value row_dict nm' = PyNone ↔ blank (row_dict !! nm')) ∧
  raw_value row_dict nm = nan ∧
  field_value L row_dict (mkfield nm "short text") = Return (PyStr "nan") ∧
  field_value L row_dict (mkfield nm "long text") = Return (PyStr "nan") ∧
  field_value L row_dict (mkfield nm "number") = Return nan ∧
  validate_and_cast L (set_schema [mkfield nm "short text"] s) row_dict =
    Return (Ok {[ nm := PyStr "nan" ]}) ∧
  validate_and_cast L (set_schema [mkfield nm "long text"] s) row_dict =
    Return (Ok {[ nm := PyStr "nan" ]}) ∧
  validate_and_cast L (set_schema [mkfield nm "number"] s) row_dict =
    Return (Ok {[ nm := nan ]}).
Proof.
  intros Hnan.
  assert (Hraw : raw_value row_dict nm = nan).
  { unfold raw_value. by rewrite Hnan. }
  assert (Hshort : field_value L row_dict (mkfield nm "short text") = Return (PyStr "nan")).
  { unfold field_value. simpl. by rewrite Hraw. }
  assert (Hlong : field_value L row_dict (mkfield nm "long text") = Return (PyStr "nan")).
  { unfold field_value. simpl. by rewrite Hraw. }
  assert (Hnum : field_value L row_dict (mkfield nm "number") = Return nan).
  { unfold field_value. simpl. by rewrite Hraw. }
  split_and!; try done.
  - intros nm'. apply raw_value_blank.
  - unfold validate_and_cast. simpl schema. by rewrite validate_loop_cons, Hshort.
  - unfold validate_and_cast. simpl schema. by rewrite validate_loop_cons, Hlong.
  - unfold validate_and_cast. simpl schema. by rewrite validate_loop_cons, Hnum.
Qed.

Lemma nan_entry_is_cast_as_a_value_witness :
  let row := {[ "a" := nan; "b" := nan; "c" := nan ]} in
  row !! "c" = Some nan ∧
  field_value Sample.lib row (mkfield "c" "short text") = Return (PyStr "nan") ∧
  field_value Sample.lib row (mkfield "c" "number") = Return nan ∧
  validate_and_cast Sample.lib four_types row =
    Return (Ok {[ "a" := PyStr "nan"; "b" := PyStr "nan"; "c" := nan; "d" := PyNone ]}).
Proof.
  intros row.
  assert (Hc : row !! "c" = Some nan) by (vm_compute; reflexivity).
  destruct (nan_entry_is_cast_as_a_value Sample.lib row "c" four_types Hc)
    as (_ & _ & Hshort & _ & Hnum & _).
  split_and!; [exact Hc | exact Hshort | exact Hnum | vm_compute; reflexivity].
Defined.

(** C1, at the store that holds the one row entered in the form as
    [a = "x"] and [b] left empty, for the schema of two short text fields.
    The row is stored with [None] under [b], and there is CSV text to
    download. When pandas reads that text back with NaN for the empty field,
    the upload into the cleared store adds a row that holds the string "nan"
    under [b]: the rows after the round trip are not the rows before it. *)
Theorem export_then_import_changes_null (L : PyLib) :
  let before := step L two_texts (AddRow {[ "a" := PyStr "x"; "b" := PyStr "" ]}) in
  let csv := to_csv L (schema_to_dataframe before) in
  let after := step L (step L before ClearData) (Upload csv) in
  read_csv L csv = Return (mkframe ["a"; "b"] [[PyStr "x"; nan]]) →
  schema before = schema two_texts ∧
  rows before = [ {[ "a" := PyStr "x"; "b" := PyNone ]} ] ∧
  export_csv L before = Some csv ∧
  schema after = schema two_texts ∧
  rows after = [ {[ "a" := PyStr "x"; "b" := PyStr "nan" ]} ] ∧
  rows after ≠ rows before.
Proof.
  intros before csv after Hread.
  assert (Hbefore : before =
            set_rows [ {[ "a" := PyStr "x"; "b" := PyNone ]} ] two_texts)
    by (vm_compute; reflexivity).
  assert (Hclear : step L before ClearData = two_texts)
    by (rewrite Hbefore; vm_compute; reflexivity).
  assert (Hup : upload_csv L csv {| session := two_texts; page := [] |} =
            (Thrown RerunException,
             {| session := set_rows [ {[ "a" := PyStr "x"; "b" := PyStr "nan" ]} ] two_texts;
                page := [st_success "Imported 1 rows from CSV."] |})).
  { rewrite (upload_csv_import L two_texts [] csv
               (mkframe ["a"; "b"] [[PyStr "x"; nan]]) Hread).
    - vm_compute. reflexivity.
    - repeat constructor. }
  assert (Hafter : after =
            set_rows [ {[ "a" := PyStr "x"; "b" := PyStr "nan" ]} ] two_texts).
  { unfold after. rewrite Hclear. unfold step. simpl handle.
    rewrite with_schema_run. simpl schema at 1. cbv iota. by rewrite Hup. }
  split_and!.
  - by rewrite Hbefore.
  - by rewrite Hbefore.
  - unfold export_csv. fold csv. rewrite Hbefore.  reflexivity.
  - by rewrite Hafter.
  - by rewrite Hafter.
  - rewrite Hafter, Hbefore. simpl. intros Heq.
    apply (f_equal (λ l : list (gmap string pyval), head l ≫= (.!! "b"))) in Heq.
    vm_compute in Heq. discriminate.
Qed.

Lemma export_then_import_changes_null_witness :
  let before := step Sample.lib two_texts (AddRow {[ "a" := PyStr "x"; "b" := PyStr "" ]}) in
  let csv := to_csv Sample.lib (schema_to_dataframe before) in
  let after := step Sample.lib (step Sample.lib before ClearData) (Upload csv) in
  csv = "a,b" +:+ Sample.newline +:+ "x," +:+ Sample.newline ∧
  read_csv Sample.lib csv = Return (mkframe ["a"; "b"] [[PyStr "x"; nan]]) ∧
  rows before = [ {[ "a" := PyStr "x"; "b" := PyNone ]} ] ∧
  rows after = [ {[ "a" := PyStr "x"; "b" := PyStr "nan" ]} ] ∧
  rows after ≠ rows before.
Proof.
  intros before csv after.
  assert (Hread : read_csv Sample.lib csv = Return (mkframe ["a"; "b"] [[PyStr "x"; nan]]))
    by (vm_compute; reflexivity).
  destruct (export_then_import_changes_null Sample.lib Hread)
    as (_ & Hbefore & _ & _ & Hafter & Hne).
  split_and!; [vm_compute; reflexivity | exact Hread | exact Hbefore | exact Hafter
              | exact Hne].
Defined.

(** * Further properties of the script *)

(** ** [validate_and_cast] *)

Section MoreValidation.

Variable L : PyLib.
Implicit Types (row_dict out : gmap string pyval) (f : field).

Lemma validate_loop_no_failure fields row_dict out :
  Forall (λ g, ¬ raises (field_value L row_dict g)) fields →
  ∃ out', validate_loop L fields row_dict out = Return (Ok out').
Proof.
  intros Hall. revert out.
  induction Hall as [|g fields Hg _ IH]; intros out; [by eexists|].
  rewrite validate_loop_cons.
  destruct (field_value L row_dict g) as [v|e] eqn:Hv; [apply IH|].
  exfalso. apply Hg. by exists e.
Qed.

Lemma same_name_same_field (fields : list field) f g :
  NoDup (map name fields) → f ∈ fields → g ∈ fields → name f = name g → f = g.
Proof.
  induction fields as [|h fields IH]; intros Hnd Hf Hg Hname.
  - by apply elem_of_nil in Hf.
  - apply NoDup_cons in Hnd as [Hh Hnd].
    apply elem_of_cons in Hf as [->|Hf]; apply elem_of_cons in Hg as [->|Hg].
    + done.
    + exfalso. apply Hh. rewrite Hname. apply list_elem_of_fmap. eauto.
    + exfalso. apply Hh. rewrite <- Hname. apply list_elem_of_fmap. eauto.
    + by apply IH.
Qed.

Lemma field_value_ext row_dict row_dict' f :
  row_dict !! name f = row_dict' !! name f →
  field_value L row_dict f = field_value L row_dict' f.
Proof. intros Heq. unfold field_value, raw_value. by rewrite Heq. Qed.

Lemma validate_loop_ext fields row_dict row_dict' out :
  Forall (λ f, row_dict !! name f = row_dict' !! name f) fields →
  validate_loop L fields row_dict out = validate_loop L fields row_dict' out.
Proof.
  intros Hall. revert out.
  induction Hall as [|f fields Hf _ IH]; intros out; [done|].
  rewrite !validate_loop_cons, (field_value_ext _ _ _ Hf).
  destruct (field_value L row_dict' f); [apply IH | done].
Qed.

Lemma text_field_value row_dict f :
  type f ≠ "number" → type f ≠ "date" →
  field_value L row_dict f = Return PyNone ∨
  ∃ t, field_value L row_dict f = Return (PyStr t).
Proof.
  intros Hn Hd. unfold field_value, cast.
  destruct (raw_value row_dict (name f)); try (by left);
    rewrite !decide_False by done; right; by eexists.
Qed.

Lemma accepted_value s row_dict out f :
  validate_and_cast L s row_dict = Return (Ok out) →
  NoDup (map name (schema s)) → f ∈ schema s →
  ∃ v, field_value L row_dict f = Return v ∧ out !! name f = Some v.
Proof.
  intros (_ & _ & Hin)%validate_loop_ok Hnd Hf.
  destruct (Hin (name f)) as (g & v & Hg & Hname & Hv & Hout).
  { apply list_elem_of_fmap. eauto. }
  assert (g = f) as -> by by eapply same_name_same_field.
  eauto.
Qed.

Lemma failures_name_fields s cols rs :
  Forall (λ msg, ∃ r f e, r ∈ rs ∧ f ∈ schema s ∧
                          field_value L (to_dict cols r) f = Raise e ∧
                          msg = cast_error (name f) (type f) e)
         (failures (attempts L s cols rs)).
Proof.
  induction rs as [|r rs IH]; [constructor|]. simpl.
  assert (Hrest : Forall (λ msg, ∃ r' f e, r' ∈ r :: rs ∧ f ∈ schema s ∧
                    field_value L (to_dict cols r') f = Raise e ∧
                    msg = cast_error (name f) (type f) e)
                  (failures (attempts L s cols rs))).
  { eapply Forall_impl; [exact IH|]. intros msg (r' & f & e & ? & ? & ? & ?).
    exists r', f, e. split_and!; try done. by right. }
  destruct (validate_and_cast L s (to_dict cols r)) as [[out|msg]|e] eqn:Hv;
    simpl; try done.
  constructor; [|done].
  apply validate_loop_failed in Hv as (g & e & Hg & He & ->).
  exists r, g, e. split_and!; try done. by left.
Qed.

End MoreValidation.

(** X2: a raw row is accepted exactly when the value of every field of the
    schema casts; and when the field names are pairwise distinct, the row
    that is returned holds under every field name the cast value of that
    field. *)
Theorem validate_and_cast_accepts_iff (L : PyLib) (s : session_state)
    (row_dict : gmap string pyval) :
  ((∃ out, validate_and_cast L s row_dict = Return (Ok out)) ↔
   Forall (λ f, ¬ raises (field_value L row_dict f)) (schema s)) ∧
  (∀ out f, validate_and_cast L s row_dict = Return (Ok out) →
            NoDup (map name (schema s)) → f ∈ schema s →
            ∃ v, field_value L row_dict f = Return v ∧ out !! name f = Some v).
Proof.
  split; [split|].
  - intros [out Hout]. apply Forall_forall. intros f Hf [e He].
    destruct (first_failure_split L (schema s) row_dict) as
      (pre & g & post & e' & Hsplit & Hpre & Hg).
    { apply Exists_exists. exists f. split; [done|]. by exists e. }
    unfold validate_and_cast in Hout. rewrite Hsplit in Hout.
    by rewrite (validate_loop_first_failure L pre g post row_dict ∅ e' Hpre Hg) in Hout.
  - intros Hall. by apply validate_loop_no_failure.
  - intros out f Hout Hnd Hf. by eapply accepted_value.
Qed.

Lemma validate_and_cast_accepts_iff_witness :
  let row := {[ "age" := PyStr "30"; "joined" := PyStr "2023-01-05" ]} in
  let out := {[ "age" := PyFloat (Sample.double 30);
                "joined" := PyDate (mkdate 2023 1 5) ]} in
  validate_and_cast Sample.lib age_joined row = Return (Ok out) ∧
  NoDup (map name (schema age_joined)) ∧
  ∃ v, field_value Sample.lib row (mkfield "joined" "date") = Return v ∧
       out !! "joined" = Some v.
Proof.
  intros row out.
  assert (Hok : validate_and_cast Sample.lib age_joined row = Return (Ok out))
    by (vm_compute; reflexivity).
  assert (Hnd : NoDup (map name (schema age_joined))).
  { apply (bool_decide_unpack _). vm_compute. reflexivity. }
  split_and!; [exact Hok | exact Hnd |].
  apply (proj2 (validate_and_cast_accepts_iff Sample.lib age_joined row)
           out (mkfield "joined" "date") Hok Hnd).
  repeat constructor.
Defined.

(** X3: the answer of [validate_and_cast] depends on the raw row only
    through the entries under the field names of the schema: two raw rows
    that agree there, whatever other keys they have, get the same answer. *)
Theorem validate_and_cast_ignores_other_keys (L : PyLib) (s : session_state)
    (row_dict row_dict' : gmap string pyval) :
  (∀ f, f ∈ schema s → row_dict !! name f = row_dict' !! name f) →
  validate_and_cast L s row_dict = validate_and_cast L s row_dict'.
Proof.
  intros Hagree. apply validate_loop_ext. by apply Forall_forall.
Qed.

Lemma validate_and_cast_ignores_other_keys_witness :
  validate_and_cast Sample.lib age_joined
    {[ "age" := PyStr "30"; "shoe size" := PyStr "43" ]} =
  validate_and_cast Sample.lib age_joined
    {[ "age" := PyStr "30"; "note" := PyNone; "id" := PyInt 7 ]}.
Proof.
  apply validate_and_cast_ignores_other_keys.
  intros f Hf.
  assert (f = mkfield "age" "number" ∨ f = mkfield "joined" "date") as [-> | ->].
  { simpl in Hf. apply elem_of_cons in Hf as [->|Hf]; [by left|].
    apply elem_of_cons in Hf as [->|Hf]; [by right|]. by apply elem_of_nil in Hf. }
  - vm_compute. reflexivity.
  - vm_compute. reflexivity.
Defined.

(** X4: when no field of the schema has the type "number" or "date", every
    raw row is accepted, and every value of the row that is returned is
    [None] or a string. *)
Theorem text_schema_accepts_every_row (L : PyLib) (s : session_state)
    (row_dict : gmap string pyval) :
  Forall (λ f, type f ≠ "number" ∧ type f ≠ "date") (schema s) →
  ∃ out, validate_and_cast L s row_dict = Return (Ok out) ∧
         ∀ nm v, out !! nm = Some v → v = PyNone ∨ ∃ t, v = PyStr t.
Proof.
  intros Htext.
  destruct (validate_loop_no_failure L (schema s) row_dict ∅) as [out Hout].
  { eapply Forall_impl; [exact Htext|]. intros f [Hn Hd] [e He].
    destruct (text_field_value L row_dict f Hn Hd) as [Hv|[t Hv]]; congruence. }
  exists out. split; [done|]. intros nm v Hnm.
  destruct (validate_loop_ok L _ _ _ _ Hout) as (Hdom & Hother & Hin).
  destruct (decide (nm ∈ map name (schema s))) as [Hin'|Hout'].
  - destruct (Hin nm Hin') as (g & w & Hg & _ & Hw & Hlook).
    assert (w = v) as -> by congruence.
    rewrite Forall_forall in Htext. destruct (Htext g Hg) as [Hn Hd].
    destruct (text_field_value L row_dict g Hn Hd) as [Hv|[t Hv]];
      rewrite Hv in Hw; injection Hw as <-; eauto.
  - rewrite (Hother nm Hout') in Hnm. by rewrite lookup_empty in Hnm.
Qed.

Lemma text_schema_accepts_every_row_witness :
  Forall (λ f, type f ≠ "number" ∧ type f ≠ "date") (schema two_texts) ∧
  validate_and_cast Sample.lib two_texts
    {[ "a" := PyInt 7; "b" := PyDate (mkdate 2023 1 5) ]} =
    Return (Ok {[ "a" := PyStr "7"; "b" := PyStr "2023-01-05" ]}) ∧
  ∃ out, validate_and_cast Sample.lib two_texts {[ "a" := PyBool true ]} =
           Return (Ok out) ∧
         ∀ nm v, out !! nm = Some v → v = PyNone ∨ ∃ t, v = PyStr t.
Proof.
  assert (Htext : Forall (λ f, type f ≠ "number" ∧ type f ≠ "date") (schema two_texts)).
  { repeat constructor; vm_compute; discriminate. }
  split_and!; [exact Htext | vm_compute; reflexivity |].
  exact (text_schema_accepts_every_row Sample.lib two_texts {[ "a" := PyBool true ]} Htext).
Defined.

(** ** What a run does to the schema and the rows *)

Section Effects.

Variable L : PyLib.

(** A schema that "Save schema" accepts. *)
Lemma save_loop_accepts idx : ∀ tf acc (seen : gset string) msg new_schema,
  save_loop idx tf acc seen = (true, msg, new_schema) →
  new_schema = acc ++ map (draft_field tf) idx ∧
  NoDup (map (draft_name tf) idx) ∧
  Forall (λ i, draft_name tf i ≠ "" ∧ draft_name tf i ∉ seen) idx.
Proof.
  induction idx as [|i idx IH]; intros tf acc seen msg new_schema.
  - simpl. intros [= <-]. rewrite app_nil_r. split_and!; [done|constructor|constructor].
  - rewrite save_loop_cons. case_decide as Hne; [done|].
    case_decide as Hseen; [done|].
    intros (-> & Hnd & Hall)%IH. split_and!.
    + simpl. by rewrite <- (assoc_L (++)).
    + simpl. apply NoDup_cons. split; [|done].
      intros (j & Hj & Hin)%list_elem_of_fmap.
      rewrite Forall_forall in Hall. destruct (Hall j Hin) as [_ Hnot].
      apply Hnot. rewrite <- Hj. set_solver.
    + constructor; [done|]. eapply Forall_impl; [exact Hall|].
      intros j [? Hnot]. split; [done|]. set_solver.
Qed.

Lemma saved_schema_ok tf n msg new_schema :
  save_loop (seq 0 n) tf [] ∅ = (true, msg, new_schema) →
  length new_schema = n ∧
  NoDup (map name new_schema) ∧
  Forall (λ f, name f ≠ "" ∧ Str.strip (name f) = name f) new_schema.
Proof.
  intros (-> & Hnd & Hall)%save_loop_accepts. simpl. split_and!.
  - by rewrite length_map, length_seq.
  - by rewrite <- list_fmap_compose.
  - apply Forall_fmap. eapply Forall_impl; [exact Hall|].
    intros i [Hne _]. simpl. split; [done|]. apply strip_strip.
Qed.

(** The form and the upload change nothing but the rows, and those only by
    appending rows that [validate_and_cast] returned. *)
Lemma add_row_appends s new_row :
  ∃ added, step L s (AddRow new_row) = set_rows (rows s ++ added) s ∧
           (schema s = [] → added = []) ∧
           Forall (λ r, ∃ row_dict, validate_and_cast L s row_dict = Return (Ok r)) added.
Proof.
  unfold step. simpl handle. rewrite with_schema_run.
  destruct (schema s) eqn:Hsch.
  { exists []. rewrite app_nil_r. split_and!; [by destruct s|done|constructor]. }
  rewrite add_row_run.
  destruct (validate_and_cast L s new_row) as [[out|msg]|e] eqn:Hv; simpl.
  - exists [out]. split_and!; [done|done|]. constructor; [eauto|constructor].
  - exists []. rewrite app_nil_r. split_and!; [by destruct s|done|constructor].
  - exists []. rewrite app_nil_r. split_and!; [by destruct s|done|constructor].
Qed.

Lemma imported_validated s cols rs :
  Forall (λ r, ∃ row_dict, validate_and_cast L s row_dict = Return (Ok r))
         (imported (attempts L s cols rs)).
Proof.
  induction rs as [|r rs IH]; [constructor|]. simpl.
  destruct (validate_and_cast L s (to_dict cols r)) as [[out|msg]|e] eqn:Hv;
    simpl; try done.
  constructor; eauto.
Qed.

Lemma upload_appends s uploaded :
  ∃ added, step L s (Upload uploaded) = set_rows (rows s ++ added) s ∧
           (schema s = [] → added = []) ∧
           Forall (λ r, ∃ row_dict, validate_and_cast L s row_dict = Return (Ok r)) added.
Proof.
  unfold step. simpl handle. rewrite with_schema_run.
  destruct (schema s) eqn:Hsch.
  { exists []. rewrite app_nil_r. split_and!; [by destruct s|done|constructor]. }
  clear Hsch. destruct (read_csv L uploaded) as [df|e] eqn:Hread.
  - destruct (decide (filter (λ c, c ∉ columns df) (map name (schema s)) = []))
      as [Hnil|Hmiss].
    + rewrite (upload_csv_import L s [] uploaded df Hread)
        by by apply missing_columns_nil.
      eexists. split_and!; [done|done|]. apply imported_validated.
    + rewrite (upload_csv_abort L s [] uploaded df Hread Hmiss).
      exists []. rewrite app_nil_r. split_and!; [by destruct s|done|constructor].
  - rewrite (upload_csv_unreadable L s [] uploaded e Hread).
    exists []. rewrite app_nil_r. split_and!; [by destruct s|done|constructor].
Qed.

(** Every run appends rows under the schema it found, or leaves no row and
    keeps the schema, drops it or saves a new one. *)
Lemma step_effect s ev :
  (schema (step L s ev) = schema s ∧
   ∃ added, rows (step L s ev) = rows s ++ added ∧ (schema s = [] → added = [])) ∨
  (rows (step L s ev) = [] ∧
   (schema (step L s ev) = schema s ∨ schema (step L s ev) = [] ∨
    ∃ msg, save_loop (seq 0 (num_vars s)) (temp_fields s) [] ∅ =
             (true, msg, schema (step L s ev)))).
Proof.
  assert (Hsame : ∀ s', schema s' = schema s → rows s' = rows s →
            schema s' = schema s ∧
            ∃ added, rows s' = rows s ++ added ∧ (schema s = [] → added = [])).
  { intros s' ? Hrows. split; [done|]. exists []. by rewrite app_nil_r. }
  destruct ev.
  - left. unfold step. simpl handle. unfold number_input, seq_bind, get_state. simpl.
    case_decide; by apply Hsame.
  - left. by apply Hsame.
  - left. unfold step. simpl handle. unfold edit_field, seq_bind, get_state. simpl.
    case_decide; by apply Hsame.
  - unfold step. simpl handle. rewrite save_schema_run.
    destruct (save_loop _ _ _ _) as [[[] msg] new_schema] eqn:Hsave; simpl.
    + right. split; [done|]. right. right. by exists msg.
    + left. by apply Hsame.
  - unfold step. simpl handle. rewrite with_schema_run.
    destruct (decide (schema s = [])) as [Hsch|Hsch].
    + left. rewrite Hsch. simpl. split; [done|]. exists []. by rewrite app_nil_r.
    + right. destruct (schema s); [done|]. auto.
  - unfold step. simpl handle. rewrite with_schema_run.
    destruct (decide (schema s = [])) as [Hsch|Hsch].
    + left. rewrite Hsch. simpl. split; [done|]. exists []. by rewrite app_nil_r.
    + right. destruct (schema s) eqn:Hs; [done|]. simpl. split; [done|]. by left.
  - left. destruct (add_row_appends s new_row) as (added & -> & Hnil & _).
    simpl. split; [done|]. eauto.
  - left. destruct (upload_appends s uploaded) as (added & -> & Hnil & _).
    simpl. split; [done|]. eauto.
Qed.

Lemma step_schema_ok s ev : schema_ok s → schema_ok (step L s ev).
Proof.
  intros Hs. unfold schema_ok.
  destruct (step_effect s ev) as [[-> _]|[_ [->|[->|[msg Hsave]]]]]; try done.
  - split; constructor.
  - by destruct (saved_schema_ok _ _ _ _ Hsave) as (_ & ? & ?).
Qed.

Lemma step_rows_need_schema s ev : rows_need_schema s → rows_need_schema (step L s ev).
Proof.
  intros Hs. unfold rows_need_schema.
  destruct (step_effect s ev) as [(Hsch & added & -> & Hnil)|[-> _]]; [|done].
  rewrite Hsch. intros Hempty. by rewrite (Hs Hempty), (Hnil Hempty).
Qed.

Lemma run_invariants evs :
  schema_ok (run L evs) ∧ rows_need_schema (run L evs).
Proof.
  unfold run.
  assert (Hfold : ∀ s, schema_ok s → rows_need_schema s →
            schema_ok (foldl (step L) s evs) ∧ rows_need_schema (foldl (step L) s evs)).
  { induction evs as [|ev evs IH]; intros s Hok Hrows; [done|].
    simpl. apply IH; [by apply step_schema_ok | by apply step_rows_need_schema]. }
  apply Hfold; [split; constructor | done].
Qed.



Lemma schema_to_dataframe_rows s :
  rows_need_schema s →
  schema_to_dataframe s = DataFrame_of_rows (rows s) (map name (schema s)).
Proof.
  intros Hs. unfold schema_to_dataframe.
  destruct (schema s) eqn:Hsch; [|done]. by rewrite (Hs Hsch).
Qed.

End Effects.

(** ** The widgets of the draft *)

Lemma name_key_inj i j : name_key i = name_key j → i = j.
Proof.
  unfold name_key. intros Heq%(inj (String.app "name_")).
  by apply (inj pretty) in Heq.
Qed.

Lemma type_key_inj i j : type_key i = type_key j → i = j.
Proof.
  unfold type_key. intros Heq%(inj (String.app "type_")).
  by apply (inj pretty) in Heq.
Qed.

Lemma name_key_type_key i j : name_key i ≠ type_key j.
Proof. unfold name_key, type_key. simpl. discriminate. Qed.

Lemma edit_field_run i new_name new_type s pg :
  edit_field i new_name new_type {| session := s; page := pg |} =
    (Done tt,
     {| session := set_temp_fields
                     (<[type_key i := new_type]>
                        (<[name_key i := new_name]> (temp_fields s))) s;
        page := pg |}).
Proof.
  unfold edit_field, seq_bind, get_state. simpl.
  case_decide as Hchange; [done|]. unfold ret. do 2 f_equal.
  destruct (decide (temp_fields s !! name_key i = Some new_name)) as [Hn|Hn];
    [|exfalso; apply Hchange; by left].
  destruct (decide (temp_fields s !! type_key i = Some new_type)) as [Ht|Ht];
    [|exfalso; apply Hchange; by right].
  rewrite (insert_id (temp_fields s) _ _ Hn), (insert_id (temp_fields s) _ _ Ht).
  by destruct s.
Qed.

Lemma define_loop_run widgets idx : ∀ s pg,
  define_loop idx widgets {| session := s; page := pg |} =
    (Done tt,
     {| session := set_temp_fields (synced widgets idx (temp_fields s)) s;
        page := pg |}).
Proof.
  induction idx as [|i idx IH]; intros s pg.
  - simpl. unfold ret. by destruct s.
  - simpl. unfold seq_bind. rewrite edit_field_run. by rewrite IH.
Qed.

Lemma synced_other widgets idx : ∀ tf k,
  (∀ i, i ∈ idx → k ≠ name_key i ∧ k ≠ type_key i) →
  synced widgets idx tf !! k = tf !! k.
Proof.
  induction idx as [|i idx IH]; intros tf k Hk; [done|].
  simpl. rewrite IH by (intros j Hj; apply Hk; by right).
  destruct (Hk i) as [Hn Ht]; [by left|].
  by rewrite !lookup_insert_ne.
Qed.

Lemma synced_lookup widgets idx : ∀ tf i,
  i ∈ idx →
  synced widgets idx tf !! name_key i = Some (fst (widgets i)) ∧
  synced widgets idx tf !! type_key i = Some (snd (widgets i)).
Proof.
  induction idx as [|j idx IH]; intros tf i Hi; [by apply elem_of_nil in Hi|].
  simpl. destruct (decide (i ∈ idx)) as [Hin|Hout]; [by apply IH|].
  apply elem_of_cons in Hi as [->|Hi]; [|done].
  rewrite !synced_other.
  - rewrite lookup_insert_ne by (intros Heq; by apply (name_key_type_key j j)).
    by rewrite !lookup_insert_eq.
  - intros i Hi. split; [|intros Heq%type_key_inj; congruence].
    intros Heq. by apply (name_key_type_key i j).
  - intros i Hi. split; [intros Heq%name_key_inj; congruence|].
    apply name_key_type_key.
Qed.

(** ** The row of the form *)

Lemma form_entry_other typed picked acc f nm :
  name f ≠ nm → form_entry typed picked acc f !! nm = acc !! nm.
Proof.
  intros Hne. unfold form_entry.
  repeat case_decide; by rewrite ?lookup_insert_ne.
Qed.

Lemma form_entry_same typed picked (acc : gmap string pyval) f :
  acc !! name f = None →
  form_entry typed picked acc f !! name f = form_value typed picked f.
Proof.
  intros Hnone. unfold form_entry, form_value.
  repeat case_decide; by rewrite ?lookup_insert_eq.
Qed.

Lemma form_row_other typed picked fields : ∀ acc nm,
  nm ∉ map name fields →
  foldl (form_entry typed picked) acc fields !! nm = acc !! nm.
Proof.
  induction fields as [|g fields IH]; intros acc nm Hnm; [done|].
  simpl in *. apply not_elem_of_cons in Hnm as [Hne Hnm].
  rewrite IH by done. by apply form_entry_other.
Qed.

Lemma form_row_lookup typed picked fields f :
  NoDup (map name fields) → f ∈ fields →
  form_row typed picked fields !! name f = form_value typed picked f.
Proof.
  unfold form_row. generalize (lookup_empty (M := gmap string) (A := pyval) (name f)).
  generalize (∅ : gmap string pyval).
  induction fields as [|g fields IH]; intros acc Hacc Hnd Hf.
  - by apply elem_of_nil in Hf.
  - simpl in *. apply NoDup_cons in Hnd as [Hg Hnd].
    apply elem_of_cons in Hf as [->|Hin].
    + rewrite form_row_other by done. by apply form_entry_same.
    + apply IH; try done. rewrite form_entry_other; [done|].
      intros Heq. apply Hg. rewrite Heq. apply list_elem_of_fmap. eauto.
Qed.

(** ** The extras on the handlers *)

(** X5: a row built by the form, under a schema with pairwise distinct
    names, can be rejected only for a field of type "number" whose text is
    not blank and is refused by [float]; the error names that field. When
    the text of every number field is blank or is read by [float], the row
    is accepted: text and date fields never reject a form row. *)
Theorem form_row_rejected_only_for_a_number (L : PyLib) (s : session_state)
    (typed : string → string) (picked : string → option date) :
  NoDup (map name (schema s)) →
  let row := form_row typed picked (schema s) in
  (∀ msg, validate_and_cast L s row = Return (Failed msg) →
     ∃ f e, f ∈ schema s ∧ type f = "number" ∧
            Str.all_space (typed (name f)) = false ∧
            float_of_str L (typed (name f)) = Raise e ∧
            msg = cast_error (name f) "number" e) ∧
  (Forall (λ f, type f = "number" →
                Str.all_space (typed (name f)) = true ∨
                ∃ x, float_of_str L (typed (name f)) = Return x) (schema s) →
   ∃ out, validate_and_cast L s row = Return (Ok out)).
Proof.
  intros Hnd row.
  assert (Hfail : ∀ msg, validate_and_cast L s row = Return (Failed msg) →
     ∃ f e, f ∈ schema s ∧ type f = "number" ∧
            Str.all_space (typed (name f)) = false ∧
            float_of_str L (typed (name f)) = Raise e ∧
            msg = cast_error (name f) "number" e).
  { intros msg (f & e & Hf & He & ->)%validate_loop_failed.
    exists f, e. unfold field_value, raw_value in He.
    unfold row in He. rewrite (form_row_lookup typed picked _ f Hnd Hf) in He.
    unfold form_value in He.
    assert (Htext : ∀ t, (type f ≠ "number") → (type f ≠ "date") →
              match (if is_blank_str (PyStr t) then PyNone else PyStr t) with
              | PyNone => Return PyNone
              | val => cast L (type f) val
              end ≠ Raise e).
    { intros t Hn Hd. destruct (is_blank_str (PyStr t)); [done|].
      unfold cast. by rewrite !decide_False by done. }
    case_decide as Hshort.
    { exfalso. simpl in He. apply (Htext (typed (name f))); [by rewrite Hshort..|done]. }
    case_decide as Hlong.
    { exfalso. simpl in He. apply (Htext (typed (name f))); [by rewrite Hlong..|done]. }
    case_decide as Hnum.
    { simpl in He. case_bool_decide as Hblank; [done|].
      unfold cast in He. rewrite Hnum in He. rewrite decide_True in He by done.
      simpl in He.
      destruct (float_of_str L (typed (name f))) as [x|e'] eqn:Hfloat; [done|].
      injection He as <-. split_and!; try done; [|by rewrite Hnum].
      destruct (Str.all_space (typed (name f))) eqn:Hall; [|done].
      by apply strip_empty in Hall. }
    case_decide as Hdate.
    { exfalso. simpl in He. unfold cast in He.
      destruct (picked (name f)); simpl in He; [|done].
      by rewrite decide_False, decide_True in He. }
    done. }
  split; [exact Hfail|].
  intros Hnum.
  destruct (validate_loop_returns L (schema s) row ∅) as [[out|msg] Hr]; [by exists out|].
  destruct (Hfail msg Hr) as (f & e & Hf & Htype & Hblank & Hraise & _).
  rewrite Forall_forall in Hnum.
  destruct (Hnum f Hf Htype) as [Hall|[x Hx]]; congruence.
Qed.

Lemma form_row_rejected_only_for_a_number_witness :
  let typed := λ nm : string, if decide (nm = "age") then "thirty" else "" in
  let picked := λ nm : string, Some (mkdate 2023 1 5) in
  NoDup (map name (schema age_joined)) ∧
  validate_and_cast Sample.lib age_joined (form_row typed picked (schema age_joined)) =
    Return (Failed "Error casting field 'age' to number: could not convert string to float: 'thirty'") ∧
  ∃ f e, f ∈ schema age_joined ∧ type f = "number" ∧
         Str.all_space (typed (name f)) = false ∧
         float_of_str Sample.lib (typed (name f)) = Raise e ∧
         "Error casting field 'age' to number: could not convert string to float: 'thirty'"
           = cast_error (name f) "number" e.
Proof.
  intros typed picked.
  assert (Hnd : NoDup (map name (schema age_joined))).
  { apply (bool_decide_unpack _). vm_compute. reflexivity. }
  assert (Hfail : validate_and_cast Sample.lib age_joined
                    (form_row typed picked (schema age_joined)) =
    Return (Failed "Error casting field 'age' to number: could not convert string to float: 'thirty'"))
    by (vm_compute; reflexivity).
  split_and!; [exact Hnd | exact Hfail |].
  exact (proj1 (form_row_rejected_only_for_a_number Sample.lib age_joined typed picked Hnd)
           _ Hfail).
Defined.

(** X6: after any sequence of runs of the script, the field names of the
    schema are pairwise distinct, none is empty, and none has whitespace
    around it. *)
Theorem reachable_schema_is_well_formed (L : PyLib) (evs : list event) :
  NoDup (map name (schema (run L evs))) ∧
  Forall (λ f, name f ≠ "" ∧ Str.strip (name f) = name f) (schema (run L evs)).
Proof. by destruct (run_invariants L evs) as [Hok _]. Qed.


(** X8: after any sequence of runs, there is CSV text to download exactly
    when the store has a row, and the text is that of the frame of the
    stored rows under the field names of the schema. *)
Theorem download_offered_iff_rows (L : PyLib) (evs : list event) :
  let s := run L evs in
  (export_csv L s = None ↔ rows s = []) ∧
  (rows s ≠ [] →
   export_csv L s = Some (to_csv L (DataFrame_of_rows (rows s) (map name (schema s))))).
Proof.
  intros s. destruct (run_invariants L evs) as [_ Hneed]. fold s in Hneed.
  unfold export_csv. rewrite (schema_to_dataframe_rows s Hneed).
  unfold empty. simpl.
  destruct (rows s) as [|r rs] eqn:Hrows.
  - simpl. rewrite orb_true_r. done.
  - assert (Hsch : schema s ≠ []).
    { intros Hempty. by rewrite (Hneed Hempty) in Hrows. }
    destruct (schema s) as [|f fs]; [done|]. simpl. done.
Qed.

Lemma download_offered_iff_rows_witness :
  let evs := [NumberInput 2; EditField 0 "age" "number"; EditField 1 "joined" "date";
              SaveSchema; AddRow {[ "age" := PyStr "30" ]}] in
  rows (run Sample.lib evs) ≠ [] ∧
  export_csv Sample.lib (run Sample.lib evs) =
    Some ("age,joined" +:+ Sample.newline +:+ "30.0," +:+ Sample.newline).
Proof.
  intros evs.
  assert (Hrows : rows (run Sample.lib evs) ≠ []) by (vm_compute; discriminate).
  split; [exact Hrows|].
  rewrite (proj2 (download_offered_iff_rows Sample.lib evs) Hrows).
  vm_compute. reflexivity.
Defined.



(** X10: in a run in which "Save schema" is pressed, the loop over the
    widgets first copies them into the draft, whatever the draft held, and
    the schema that is saved is the list of the stripped names with their
    types, in the order of the widgets, when those names are not empty and
    pairwise distinct. *)
Theorem define_and_save_commits_the_widgets (s : session_state)
    (pg : list st_call) (widgets : nat → string * string) :
  (∀ j, j < num_vars s →
        Str.strip (fst (widgets j)) ≠ "" ∧
        (∀ k, k < j → Str.strip (fst (widgets k)) ≠ Str.strip (fst (widgets j)))) →
  define_and_save widgets {| session := s; page := pg |} =
    (Thrown RerunException,
     {| session :=
          {| schema := map (λ i, mkfield (Str.strip (fst (widgets i))) (snd (widgets i)))
                           (seq 0 (num_vars s));
             rows := []; num_vars := num_vars s; temp_fields := ∅ |};
        page := pg ++ [st_success "Schema saved — now enter data below."] |}).
Proof.
  intros Hclean. unfold define_and_save, seq_bind at 1, define_variables.
  unfold seq_bind at 1, get_state. simpl. rewrite define_loop_run.
  rewrite save_schema_run. simpl.
  set (tf := synced widgets (seq 0 (num_vars s)) (temp_fields s)).
  assert (Hname : ∀ i, i < num_vars s → draft_name tf i = Str.strip (fst (widgets i))).
  { intros i Hi. unfold draft_name, tf.
    destruct (synced_lookup widgets (seq 0 (num_vars s)) (temp_fields s) i) as [-> _];
      [apply elem_of_seq; lia | done]. }
  assert (Htype : ∀ i, i < num_vars s → draft_type tf i = snd (widgets i)).
  { intros i Hi. unfold draft_type, tf.
    destruct (synced_lookup widgets (seq 0 (num_vars s)) (temp_fields s) i) as [_ ->];
      [apply elem_of_seq; lia | done]. }
  rewrite save_loop_all.
  - do 3 f_equal. apply map_ext_in. intros i Hi%in_seq.
    unfold draft_field. by rewrite Hname, Htype by lia.
  - intros j Hj. destruct (Hclean j Hj) as [Hne Hk].
    rewrite Hname by done. split; [done|]. intros k Hkj.
    rewrite Hname by lia. by apply Hk.
Qed.

Lemma define_and_save_commits_the_widgets_witness :
  define_and_save age_joined_widgets
    {| session := set_temp_fields (list_to_map [("name_0", "old"); ("type_1", "number")])
                    (set_rows [ {[ "age" := nan; "joined" := PyNone ]} ] age_joined);
       page := [] |} =
    (Thrown RerunException,
     {| session := {| schema := [mkfield "age" "number"; mkfield "joined" "date"];
                      rows := []; num_vars := 2; temp_fields := ∅ |};
        page := [st_success "Schema saved — now enter data below."] |}).
Proof.
  rewrite define_and_save_commits_the_widgets.
  - vm_compute. reflexivity.
  - intros j Hj. assert (j = 0 ∨ j = 1) as [-> | ->] by (simpl in Hj; lia).
    + split; [vm_compute; discriminate | intros k Hk; lia].
    + split; [vm_compute; discriminate |].
      intros k Hk. assert (k = 0) as -> by lia. vm_compute. discriminate.
Defined.

Lemma clean_before_of_accepts (tf : gmap string string) n :
  NoDup (map (draft_name tf) (seq 0 n)) →
  Forall (λ i, draft_name tf i ≠ "" ∧ draft_name tf i ∉ (∅ : gset string)) (seq 0 n) →
  clean_before tf n.
Proof.
  intros Hnd Hall j Hj. rewrite Forall_forall in Hall. split.
  - apply (Hall j). apply elem_of_seq. lia.
  - intros k Hk Heq.
    change (map (draft_name tf) (seq 0 n)) with (draft_name tf <$> seq 0 n) in Hnd.
    assert (k = j); [|lia].
    apply (NoDup_lookup _ k j (draft_name tf j) Hnd).
    + rewrite list_lookup_fmap, lookup_seq_lt by lia. simpl. by rewrite Heq.
    + rewrite list_lookup_fmap, lookup_seq_lt by lia. done.
Qed.

(** X11: "Save schema" succeeds exactly when no draft variable has an empty
    name or the name of an earlier one. The schema it saves then has
    [num_vars] fields: field [i] has the stripped name of draft variable [i]
    and its type, "short text" when the draft has none. *)
Theorem save_schema_succeeds_iff_clean (s : session_state) (pg : list st_call) :
  let r := save_schema {| session := s; page := pg |} in
  (fst r = Thrown RerunException ↔ clean_before (temp_fields s) (num_vars s)) ∧
  (fst r = Thrown RerunException →
   schema (session (snd r)) = map (draft_field (temp_fields s)) (seq 0 (num_vars s)) ∧
   length (schema (session (snd r))) = num_vars s).
Proof.
  intros r. unfold r. rewrite save_schema_run.
  destruct (save_loop _ _ _ _) as [[[] msg] new_schema] eqn:Hsave; simpl.
  - destruct (save_loop_accepts _ _ _ _ _ _ Hsave) as (-> & Hnd & Hall). simpl.
    split; [split; [intros _ | done]|].
    + by apply clean_before_of_accepts.
    + intros _. split; [done|]. by rewrite length_map, length_seq.
  - split; [split; [done|]|done].
    intros Hclean. by rewrite save_loop_all in Hsave.
Qed.

Lemma save_schema_succeeds_iff_clean_witness :
  let s := with_draft [("name_0", "à"); ("name_1", "Å"); ("name_2", " voilà" +:+ nbsp);
                       ("type_0", "number"); ("type_1", "date")] in
  clean_before (temp_fields s) (num_vars s) ∧
  fst (save_schema {| session := s; page := [] |}) = Thrown RerunException ∧
  schema (session (snd (save_schema {| session := s; page := [] |}))) =
    [mkfield "à" "number"; mkfield "Å" "date"; mkfield "voilà" "short text"].
Proof.
  intros s.
  assert (Hrun : fst (save_schema {| session := s; page := [] |}) = Thrown RerunException)
    by (vm_compute; reflexivity).
  destruct (save_schema_succeeds_iff_clean s []) as [Hiff Hschema].
  split_and!; [by apply Hiff | exact Hrun |].
  rewrite (proj1 (Hschema Hrun)). vm_compute. reflexivity.
Defined.

(** X12: the form and the CSV upload change nothing of the session state
    but the stored rows, and they change those only by appending: the rows
    that were stored stay, in their order, and every row that is added was
    returned by [validate_and_cast] under the schema of the session. *)
Theorem form_and_upload_only_append (L : PyLib) (s : session_state)
    (new_row : gmap string pyval) (uploaded : string) :
  (∃ added, step L s (AddRow new_row) = set_rows (rows s ++ added) s ∧
            Forall (λ r, ∃ row_dict, validate_and_cast L s row_dict = Return (Ok r))
                   added) ∧
  (∃ added, step L s (Upload uploaded) = set_rows (rows s ++ added) s ∧
            Forall (λ r, ∃ row_dict, validate_and_cast L s row_dict = Return (Ok r))
                   added).
Proof.
  split.
  - destruct (add_row_appends L s new_row) as (added & ? & _ & ?). eauto.
  - destruct (upload_appends L s uploaded) as (added & ? & _ & ?). eauto.
Qed.

(** X13: when the uploaded file has every column of the schema, every
    failure message that the upload collects is the cast error of a field of
    the schema, with its name and type, for a row of the file on which the
    cast of that field raised. *)
Theorem upload_failures_name_fields (L : PyLib) (s : session_state)
    (pg : list st_call) (uploaded : string) (df : DataFrame) :
  read_csv L uploaded = Return df →
  Forall (λ c, c ∈ columns df) (map name (schema s)) →
  let cols := map name (schema s) in
  let tries := attempts L s cols (data (getitem df cols)) in
  page (snd (upload_csv L uploaded {| session := s; page := pg |})) =
    pg ++ import_report L tries ∧
  Forall (λ msg, ∃ r f e, r ∈ data (getitem df cols) ∧ f ∈ schema s ∧
                          field_value L (to_dict cols r) f = Raise e ∧
                          msg = cast_error (name f) (type f) e)
         (failures tries).
Proof.
  intros Hread Hcols cols tries. split.
  - by rewrite (upload_csv_import L s pg uploaded df Hread Hcols).
  - apply failures_name_fields.
Qed.

Lemma upload_failures_name_fields_witness :
  let cols := map name (schema age_joined) in
  let tries := attempts Sample.lib age_joined cols (data (getitem twelve_rows_frame cols)) in
  length (failures tries) = 7 ∧
  Forall (λ msg, ∃ r f e, r ∈ data (getitem twelve_rows_frame cols) ∧
                          f ∈ schema age_joined ∧
                          field_value Sample.lib (to_dict cols r) f = Raise e ∧
                          msg = cast_error (name f) (type f) e)
         (failures tries).
Proof.
  intros cols tries.
  assert (Hread : read_csv Sample.lib twelve_rows = Return twelve_rows_frame)
    by (vm_compute; reflexivity).
  assert (Hcols : Forall (λ c, c ∈ columns twelve_rows_frame)
                         (map name (schema age_joined)))
    by (repeat constructor).
  split; [vm_compute; reflexivity|].
  exact (proj2 (upload_failures_name_fields Sample.lib age_joined [] twelve_rows
                  twelve_rows_frame Hread Hcols)).
Defined.


(** ** Uploading again, and what the form stores *)

Lemma step_upload (L : PyLib) (s : session_state) (uploaded : string) :
  step L s (Upload uploaded) = set_rows (rows s ++ uploaded_rows L s uploaded) s.
Proof.
  unfold step, uploaded_rows. simpl handle. rewrite with_schema_run.
  destruct (schema s) as [|f fs] eqn:Hsch.
  { simpl. rewrite app_nil_r. by destruct s. }
  rewrite <- Hsch. clear Hsch.
  destruct (read_csv L uploaded) as [df|e] eqn:Hread.
  - case_decide as Hmiss.
    + by rewrite (upload_csv_import L s [] uploaded df Hread)
        by by apply missing_columns_nil.
    + rewrite (upload_csv_abort L s [] uploaded df Hread Hmiss). simpl.
      rewrite app_nil_r. by destruct s.
  - rewrite (upload_csv_unreadable L s [] uploaded e Hread). simpl.
    rewrite app_nil_r. by destruct s.
Qed.

(** X14: the rows that an upload adds depend on the schema and on the file,
    not on the rows already stored: the upload of a file into a store that
    holds the rows [v] appends the same rows as into any other store under
    that schema, and the upload of the same file twice stores the rows of
    the file twice. *)
Theorem upload_does_not_look_at_the_store (L : PyLib) (s : session_state)
    (v : list (gmap string pyval)) (uploaded : string) :
  step L (set_rows v s) (Upload uploaded) =
    set_rows (v ++ uploaded_rows L s uploaded) s ∧
  step L (step L s (Upload uploaded)) (Upload uploaded) =
    set_rows (rows s ++ uploaded_rows L s uploaded ++ uploaded_rows L s uploaded) s.
Proof.
  assert (Hany : ∀ w, step L (set_rows w s) (Upload uploaded) =
                      set_rows (w ++ uploaded_rows L s uploaded) s).
  { intros w. by rewrite step_upload. }
  split; [apply Hany|].
  by rewrite (step_upload L s uploaded), Hany, <- (assoc_L (++)).
Qed.

(** X15: what the form stores. Under a schema with pairwise distinct
    names, a form row that is accepted holds, under a short text or long
    text field, the text of its widget as typed, or [None] when that text is
    blank; under a number field, the double that [float] reads from the
    text, or [None] when the text is blank; under a date field, the date
    that is picked, or [None] when none is. *)
Theorem form_row_stored_values (L : PyLib) (s : session_state)
    (typed : string → string) (picked : string → option date)
    (out : gmap string pyval) (f : field) :
  NoDup (map name (schema s)) →
  f ∈ schema s →
  validate_and_cast L s (form_row typed picked (schema s)) = Return (Ok out) →
  let t := typed (name f) in
  (type f = "short text" ∨ type f = "long text" →
   out !! name f = Some (if Str.all_space t then PyNone else PyStr t)) ∧
  (type f = "number" →
   if Str.all_space t then out !! name f = Some PyNone
   else ∃ x, float_of_str L t = Return x ∧ out !! name f = Some (PyFloat x)) ∧
  (type f = "date" →
   out !! name f = Some (from_option PyDate PyNone (picked (name f)))).
Proof.
  intros Hnd Hf Hok t.
  destruct (accepted_value L s _ out f Hok Hnd Hf) as (v & Hv & ->).
  unfold field_value, raw_value in Hv.
  rewrite (form_row_lookup typed picked _ f Hnd Hf) in Hv. unfold form_value in Hv.
  assert (Hblank : ∀ u, is_blank_str (PyStr u) = Str.all_space u).
  { intros u. simpl. destruct (Str.all_space u) eqn:Hu.
    - apply bool_decide_eq_true. by apply strip_empty.
    - apply bool_decide_eq_false. rewrite strip_empty. congruence. }
  assert (Htext : type f ≠ "number" → type f ≠ "date" →
            match (if is_blank_str (PyStr t) then PyNone else PyStr t) with
            | PyNone => Return PyNone
            | val => cast L (type f) val
            end = Return v →
            Some v = Some (if Str.all_space t then PyNone else PyStr t)).
  { intros Hn Hd. rewrite Hblank. destruct (Str.all_space t); [congruence|].
    unfold cast. rewrite !decide_False by done. simpl. congruence. }
  split_and!.
  - intros [Hty|Hty]; rewrite Hty in Hv; simpl in Hv; fold t in Hv;
      apply Htext; rewrite ?Hty; done.
  - intros Hty. rewrite Hty in Hv. simpl in Hv. fold t in Hv.
    change (bool_decide (Str.strip t = "")) with (is_blank_str (PyStr t)) in Hv.
    rewrite Hblank in Hv. destruct (Str.all_space t); [congruence|].
    unfold cast in Hv. simpl in Hv.
    destruct (float_of_str L t) as [x|e]; [|done].
    simpl in Hv. injection Hv as <-. eauto.
  - intros Hty. rewrite Hty in Hv. simpl in Hv.
    destruct (picked (name f)) as [d|]; simpl in *; [|congruence].
    unfold cast in Hv. simpl in Hv. congruence.
Qed.

Lemma form_row_stored_values_witness :
  let typed := λ nm : string, if decide (nm = "a") then " x " else nbsp +:+ " " in
  let picked := λ nm : string, Some (mkdate 2023 1 5) in
  let out := {[ "a" := PyStr " x "; "b" := PyNone; "c" := PyNone;
                "d" := PyDate (mkdate 2023 1 5) ]} in
  NoDup (map name (schema four_types)) ∧
  validate_and_cast Sample.lib four_types (form_row typed picked (schema four_types)) =
    Return (Ok out) ∧
  out !! "a" = Some (PyStr " x ") ∧
  out !! "d" = Some (PyDate (mkdate 2023 1 5)).
Proof.
  intros typed picked out.
  assert (Hnd : NoDup (map name (schema four_types))).
  { apply (bool_decide_unpack _). vm_compute. reflexivity. }
  assert (Hok : validate_and_cast Sample.lib four_types
                  (form_row typed picked (schema four_types)) = Return (Ok out))
    by (vm_compute; reflexivity).
  split_and!; [exact Hnd | exact Hok | |].
  - destruct (form_row_stored_values Sample.lib four_types typed picked out
                (mkfield "a" "short text") Hnd ltac:(repeat constructor) Hok)
      as (Htext & _ & _).
    exact (Htext (or_introl eq_refl)).
  - destruct (form_row_stored_values Sample.lib four_types typed picked out
                (mkfield "d" "date") Hnd ltac:(repeat constructor) Hok)
      as (_ & _ & Hdate).
    exact (Hdate eq_refl).
Defined.

